(** * quant-composer-analysis: the batch fetch / persist / aggregate notebook

    A shallow embedding of [example_usage.ipynb]: the four utility
    functions ([process_discord_exports], [batch_fetch_symphonies],
    [batch_fetch_backtests], [process_backtest_results]) and
    [main_data_collection_workflow], with the world they act on (local
    files, the remote API, standard output, the clock) threaded through
    explicitly. *)

From Stdlib Require Import ZArith Lia Ascii String Sorted.
From stdpp Require Import gmap strings list fin_maps pretty.

(** ** Data model *)

#[local] Set Warnings "-register-all".

(** An API document: the untyped nested mapping the remote service
    returns.  A number is kept as its decimal literal
    [mantissa * 10 ^ exponent]; the notebook never computes with one. *)
Inductive json :=
| JNull
| JBool (b : bool)
| JNum (mantissa exponent : Z)
| JStr (s : string)
| JArr (items : list json)
| JObj (fields : list (string * json)).

(** One row of a pandas frame of this workflow: every frame the notebook
    iterates carries a [symphony_sid] column; the other columns are
    looked up by name. *)
Record row := Row { symphony_sid : string; cells : gmap string json }.

(** A pandas DataFrame, as [iterrows] sees it: the rows in order, each
    with its index label.  The label is whatever the frame's index holds
    (0, 1, 2, ... for a default RangeIndex, anything else after a filter
    or a [set_index]). *)
Definition dataframe := list (Z * row).

(** What a local file holds. *)
Inductive content :=
| Json (j : json)
| Csv (d : dataframe)
| Raw (s : string).

(** A failure record, [(idx, sid, status_code)]. *)
Definition failure := (Z * string * Z)%type.

(** What one call of a fetch function returns:
    [(ok_status_code, status_code, json_data)]. *)
Definition reply := (bool * Z * json)%type.

(** What [get_backtest_and_symphony_name] returns, in the order the
    notebook unpacks it. *)
Record backtest := Backtest {
  bt_allocations : dataframe;
  bt_return : dataframe;
  bt_stats : gmap string json;
  bt_symphony_name : string;
  bt_id : string
}.

(** The four dictionaries of [process_backtest_results]. *)
Record dicts := Dicts {
  dict_allocation : gmap string dataframe;
  dict_return : gmap string dataframe;
  dict_stats : gmap string (gmap string json);
  dict_name : gmap string string
}.

(** ** The world *)

(** Observable effects, in the order they happen. *)
Inductive event :=
| EvPrint (msg : string)
| EvSleep (secs : Z)
| EvFetchSymphony (sid : string)
| EvFetchBacktest (sid start_date end_date : string)
| EvWrite (path : string) (c : content).

Record world := World { fs : gmap string content; trace : list event }.

Definition emit (e : event) (w : world) : world :=
  World (fs w) (trace w ++ [e]).

Definition print (msg : string) (w : world) : world := emit (EvPrint msg) w.

Definition sleep (secs : Z) (w : world) : world := emit (EvSleep secs) w.

Definition write_file (path : string) (c : content) (w : world) : world :=
  World (<[path := c]> (fs w)) (trace w ++ [EvWrite path c]).

(** [DataFrame.to_csv(path)]. *)
Definition to_csv (d : dataframe) (path : string) (w : world) : world :=
  write_file path (Csv d) w.

(** Modelled from the spec: [file_utils.write_json] is not in the
    sources; it persists the document at the given path. *)
Definition write_json (jsond : json) (filename : string) (w : world) : world :=
  write_file filename (Json jsond) w.

(** Modelled from the spec: [file_utils.read_json] is not in the
    sources; it reads and parses a persisted document, and raises
    ([None]) on a missing or unparseable file. *)
Definition read_json (jsonfile : string) (w : world) : option json :=
  match fs w !! jsonfile with
  | Some (Json j) => Some j
  | _ => None
  end.

(** [os.path.isfile] and [os.path.join]. *)
Definition isfile (path : string) (w : world) : bool :=
  bool_decide (is_Some (fs w !! path)).

Definition ends_with_slash (a : string) : bool :=
  match String.get (String.length a - 1) a with
  | Some c => bool_decide (c = "/"%char)
  | None => false
  end.

Definition join (a b : string) : string :=
  if String.prefix "/" b then b
  else if bool_decide (a = "") || ends_with_slash a then a +:+ b
  else a +:+ "/" +:+ b.

(** Python's [dict.update]: every item of [other] is stored into [d]. *)
Definition dict_update {V} (d other : gmap string V) : gmap string V :=
  map_fold (λ k v acc, <[k := v]> acc) d other.

(** Python's [dict(pairs)]: later pairs overwrite earlier ones. *)
Definition dict_of_pairs {V} (pairs : list (string * V)) : gmap string V :=
  foldl (λ acc kv, <[kv.1 := kv.2]> acc) ∅ pairs.

(** [df['symphony_sid'].values]. *)
Definition symphony_sid_values (df : dataframe) : list string :=
  (λ r, symphony_sid r.2) <$> df.

(** [f"bin/BT-{end_date}/{sid}.json"]. *)
Definition backtest_filename (end_date sid : string) : string :=
  "bin/BT-" +:+ end_date +:+ "/" +:+ sid +:+ ".json".

(** ** The imported modules

    [composer_api], [data_processing], [file_utils], [quant_analysis] and
    the operating system are not part of the sources; each is an
    interface the notebook is written against. *)

(** The remote service: what a call answers may depend on everything
    that happened before it (earlier calls, pauses). *)
Class ComposerApi := {
  symphony_reply : list event → string → reply;
  backtest_reply : list event → string → string → string → reply
}.

(** [get_symphonies] is handed what the export file it is pointed at
    holds; it and [get_backtest_and_symphony_name] raise ([None]) on
    input they cannot make sense of. *)
Class DataProcessing := {
  get_symphonies : content → option (gmap string json);
  symphonies_to_df : gmap string json → dataframe;
  response_to_dataframe : list json → dataframe;
  get_backtest_and_symphony_name : json → option backtest;
  convert_sid_dict_to_df :
    gmap string string → gmap string (gmap string json) → dataframe
}.

(** The CSV path of a dataset and the date range are those of the run. *)
Class FileUtils := {
  get_csv_name : string → string;
  get_start_end_date : string * string
}.

Class QuantAnalysis := {
  calculate_quantstats_metrics :
    gmap string dataframe → gmap string (gmap string json);
  calculate_oos_stats :
    gmap string dataframe → gmap string json → gmap string (gmap string json)
}.

(** [os.listdir]: the entries of a directory, in the order the system
    lists them; [None] when the directory cannot be listed. *)
Class Os := {
  listdir : gmap string content → string → option (list string)
}.

(** Modelled from the spec: [data_processing.merge_dicts] is not in the
    sources.  Its arguments map an identifier to the metric mapping of
    that identifier; the two are unioned per identifier, the keys of the
    second winning on a collision ([dict.update] of the first metric
    mapping with the second); an identifier known to one side only
    keeps that side's metric mapping. *)
Definition merge_dicts (dict1 dict2 : gmap string (gmap string json))
  : gmap string (gmap string json) :=
  union_with (λ m1 m2, Some (dict_update m1 m2)) dict1 dict2.


(** ** The notebook *)

Section Notebook.
Context {api : ComposerApi} {dp : DataProcessing} {fu : FileUtils}
        {qa : QuantAnalysis} {os : Os}.

(** [composer_api.fetch_symphony(sid)]: one network call. *)
Definition fetch_symphony (sid : string) (w : world) : reply * world :=
  (symphony_reply (trace w) sid, emit (EvFetchSymphony sid) w).

(** [composer_api.fetch_backtest_raw(sid, start_date, end_date)]. *)
Definition fetch_backtest_raw (sid start_date end_date : string) (w : world)
  : reply * world :=
  (backtest_reply (trace w) sid start_date end_date,
   emit (EvFetchBacktest sid start_date end_date) w).

(** The rate-limiting pause both fetchers share:
<<
    if idx % 20 == 0:
        print(f'Sleeping at index {idx} with failure {len(failure_list)}')
        time.sleep(1)
>> *)
Definition pace (idx : Z) (failures : nat) (w : world) : world :=
  if (idx mod 20 =? 0)%Z
  then sleep 1 (print ("Sleeping at index " +:+ pretty idx +:+
                       " with failure " +:+ pretty failures) w)
  else w.

(** *** process_discord_exports *)

Fixpoint discord_loop (jsonfiles : list string)
    (symphonies_dict : gmap string json) (w : world)
  : world * option (gmap string json) :=
  match jsonfiles with
  | [] => (w, Some symphonies_dict)
  | target_file :: rest =>
      let w1 := print ("Processing file: " +:+ target_file) w in
      match fs w1 !! target_file ≫= get_symphonies with
      | Some found => discord_loop rest (dict_update symphonies_dict found) w1
      | None => (w1, None)
      end
  end.

Definition process_discord_exports (dirpath : string) (w : world)
  : world * option (gmap string json) :=
  match listdir (fs w) dirpath with
  | None => (w, None)
  | Some names =>
      let jsonfiles :=
        (λ f, join dirpath f) <$>
          filter (λ f, isfile (join dirpath f) w = true) names in
      discord_loop jsonfiles ∅ w
  end.

(** *** batch_fetch_symphonies *)

Fixpoint symphonies_loop (idx : nat) (symphony_sid_list : list string)
    (response_list : list json) (failure_list : list failure) (w : world)
  : list json * list failure * world :=
  match symphony_sid_list with
  | [] => (response_list, failure_list, w)
  | sid :: rest =>
      let w1 := pace (Z.of_nat idx) (length failure_list) w in
      let '(ok_status_code, status_code, json_data, w2) := fetch_symphony sid w1 in
      if ok_status_code
      then symphonies_loop (S idx) rest (response_list ++ [json_data])
             failure_list w2
      else symphonies_loop (S idx) rest response_list
             (failure_list ++ [(Z.of_nat idx, sid, status_code)]) w2
  end.

Definition batch_fetch_symphonies (symphony_sid_list : list string) (w : world)
  : list json * list failure * world :=
  symphonies_loop 0 symphony_sid_list [] [] w.

(** *** batch_fetch_backtests *)

Fixpoint backtests_loop (rows : dataframe) (start_date end_date : string)
    (rlist : list json) (flist : list failure) (w : world)
  : list json * list failure * world :=
  match rows with
  | [] => (rlist, flist, w)
  | (idx, r) :: rest =>
      let w1 := pace idx (length flist) w in
      let sid := symphony_sid r in
      let filename := backtest_filename end_date sid in
      let '(ok_status_code, status_code, jsond, w2) :=
        fetch_backtest_raw sid start_date end_date w1 in
      let w3 := write_json jsond filename w2 in
      if ok_status_code
      then backtests_loop rest start_date end_date (rlist ++ [jsond]) flist w3
      else backtests_loop rest start_date end_date rlist
             (flist ++ [(idx, sid, status_code)]) w3
  end.

Definition batch_fetch_backtests (df : dataframe) (start_date end_date : string)
    (w : world) : list json * list failure * world :=
  backtests_loop df start_date end_date [] [] w.

(** *** process_backtest_results *)

(** The body of the [try]: read, extract, and only then the four
    stores. *)
Definition load_backtest (jsonfile : string) (w : world) : option backtest :=
  read_json jsonfile w ≫= get_backtest_and_symphony_name.

Definition store_backtest (b : backtest) (d : dicts) : dicts :=
  let dn := <[bt_id b := bt_symphony_name b]> (dict_name d) in
  let ds := <[bt_id b := bt_stats b]> (dict_stats d) in
  let dr := <[bt_id b := bt_return b]> (dict_return d) in
  let da := <[bt_id b := bt_allocations b]> (dict_allocation d) in
  Dicts da dr ds dn.

Fixpoint backtest_results_loop (index : nat) (jsonfiles : list string)
    (d : dicts) (w : world) : dicts * world :=
  match jsonfiles with
  | [] => (d, w)
  | jsonfile :: rest =>
      let w1 := if (Z.of_nat index mod 20 =? 0)%Z
                then print ("Index: " +:+ pretty index) w else w in
      match load_backtest jsonfile w1 with
      | Some b => backtest_results_loop (S index) rest (store_backtest b d) w1
      | None =>
          backtest_results_loop (S index) rest d
            (print ("Fail jsonfile " +:+ jsonfile) w1)
      end
  end.

Definition process_backtest_results (jsonfiles : list string) (w : world)
  : dicts * world :=
  backtest_results_loop 0 jsonfiles (Dicts ∅ ∅ ∅ ∅) w.

(** *** main_data_collection_workflow *)

(** [dict(df_response[['symphony_sid', 'backtest_start_date']].values)];
    a row without the column raises (a frame without rows is taken to
    have it). *)
Definition sid_to_oos_of (df_response : dataframe) : option (gmap string json) :=
  dict_of_pairs <$>
    mapM (λ r, (λ d, (symphony_sid r.2, d)) <$>
                 cells r.2 !! "backtest_start_date") df_response.

Definition main_data_collection_workflow (w : world)
  : world * option (dataframe * dataframe) :=
  let '(start_date, end_date) := get_start_end_date in
  let dirpath := "~/source/discord/archive/20241229" in
  match process_discord_exports dirpath w with
  | (w1, None) => (w1, None)
  | (w1, Some symphonies_dict) =>
      let df := symphonies_to_df symphonies_dict in
      let w2 := to_csv df (get_csv_name "SYMPHONIES") w1 in
      let symphony_sid_list := symphony_sid_values df in
      let '(response_list, failure_list, w3) :=
        batch_fetch_symphonies symphony_sid_list w2 in
      let df_response := response_to_dataframe response_list in
      let w4 := to_csv df_response (get_csv_name "OOS") w3 in
      let '(rlist, flist, w5) := batch_fetch_backtests df start_date end_date w4 in
      let jsonfiles := backtest_filename end_date <$> symphony_sid_values df in
      let '(d, w6) := process_backtest_results jsonfiles w5 in
      let dict_quant_stats := calculate_quantstats_metrics (dict_return d) in
      match sid_to_oos_of df_response with
      | None => (w6, None)
      | Some sid_to_oos =>
          let dict_quant_oos_stats :=
            calculate_oos_stats (dict_return d) sid_to_oos in
          let dict_backtest_stats := merge_dicts (dict_stats d) dict_quant_stats in
          let df_backtest_stats :=
            convert_sid_dict_to_df (dict_name d) dict_backtest_stats in
          let w7 := to_csv df_backtest_stats (get_csv_name "BACKTEST") w6 in
          let df_oos_stats :=
            convert_sid_dict_to_df (dict_name d) dict_quant_oos_stats in
          let w8 := to_csv df_oos_stats (get_csv_name "OOS") w7 in
          (w8, Some (df_backtest_stats, df_oos_stats))
      end
  end.

End Notebook.

(** ** Reading a trace *)

(** The events a run added: what [w'] logged beyond [w]. *)
Definition new_events (w w' : world) : list event :=
  drop (length (trace w)) (trace w').

Definition symphony_calls (tr : list event) : list string :=
  omap (λ e, match e with EvFetchSymphony sid => Some sid | _ => None end) tr.

Definition backtest_calls (tr : list event) : list (string * string * string) :=
  omap (λ e, match e with
             | EvFetchBacktest sid s e => Some (sid, s, e)
             | _ => None
             end) tr.

Definition writes (tr : list event) : list (string * content) :=
  omap (λ e, match e with EvWrite p c => Some (p, c) | _ => None end) tr.

(** What was written to one path, oldest first. *)
Definition writes_to (path : string) (tr : list event) : list content :=
  snd <$> filter (λ pc, pc.1 = path) (writes tr).

(** The positions of the pauses among the network calls: a pause is at
    position [n] when [n] calls precede it. *)
Fixpoint pause_positions (n : nat) (tr : list event) : list nat :=
  match tr with
  | [] => []
  | EvSleep _ :: rest => n :: pause_positions n rest
  | EvFetchSymphony _ :: rest => pause_positions (S n) rest
  | EvFetchBacktest _ _ _ :: rest => pause_positions (S n) rest
  | _ :: rest => pause_positions n rest
  end.

(** What the pause of a fetcher logs at index [idx]. *)
Definition pace_events (idx : Z) (failures : nat) : list event :=
  if (idx mod 20 =? 0)%Z
  then [EvPrint ("Sleeping at index " +:+ pretty idx +:+
                 " with failure " +:+ pretty failures); EvSleep 1]
  else [].

(** The positions 0, 20, 40, ... below [n]. *)
Definition every_20th (n : nat) : list nat :=
  filter (λ p, (Z.of_nat p mod 20 = 0)%Z) (seq 0 n).

(** The positions of the rows whose index label is a multiple of 20;
    the first row is at position [k]. *)
Definition paced_rows (k : nat) (labels : list Z) : list nat :=
  omap (λ x : nat * Z, if decide (x.2 mod 20 = 0)%Z then Some x.1 else None)
    (zip (seq k (length labels)) labels).

(** The files after a sequence of writes. *)
Definition fs_after (m : gmap string content) (ws : list (string * content))
  : gmap string content :=
  foldl (λ acc pc, <[pc.1 := pc.2]> acc) m ws.

(** Storing one entry per element of a list, in order. *)
Definition put_all {A V} (key : A → string) (val : A → V)
    (m : gmap string V) (l : list A) : gmap string V :=
  foldl (λ acc a, <[key a := val a]> acc) m l.

(** The backtests the files of a list hold; a file that cannot be read
    or extracted contributes nothing. *)
Definition loaded `{DataProcessing} (jsonfiles : list string) (w : world)
  : list backtest :=
  omap (λ f, load_backtest f w) jsonfiles.

(** Storing a list of backtests, in order. *)
Definition collect (bs : list backtest) (d : dicts) : dicts :=
  foldl (λ acc b, store_backtest b acc) d bs.

(** The index label and the identifier of each row. *)
Definition labelled_sids (df : dataframe) : list (Z * string) :=
  (λ x, (x.1, symphony_sid x.2)) <$> df.

(** What [batch_fetch_backtests] persists for a row and its reply. *)
Definition persisted (end_date : string) (x : Z * row) (r : reply)
  : string * content :=
  (backtest_filename end_date (symphony_sid x.2), Json r.2).

(** How a list of replies splits into the two result lists. *)
Definition successes (rs : list reply) : list json :=
  omap (λ r : reply, if r.1.1 then Some r.2 else None) rs.

Definition failures (labelled : list (Z * string * reply)) : list failure :=
  omap (λ x : Z * string * reply,
          if x.2.1.1 then None else Some (x.1.1, x.1.2, x.2.1.2)) labelled.

(** [enumerate]: each element with its position. *)
Definition enumerate_from {A} (start : nat) (l : list A) : list (Z * A) :=
  zip (Z.of_nat <$> seq start (length l)) l.

Definition enumerate {A} (l : list A) : list (Z * A) := enumerate_from 0 l.

(** ** A small run

    One concrete remote service, one set of helper modules and one disk,
    to run the notebook on. *)

(** The service knows the symphonies whose identifier does not start
    with [x]; a backtest it cannot run is answered with an error
    document. *)
Definition demo_api : ComposerApi := {|
  symphony_reply _ sid :=
    if String.prefix "x" sid then (false, 404%Z, JNull)
    else (true, 200%Z, JObj [("symphony_sid", JStr sid)]);
  backtest_reply _ sid _ _ :=
    if String.prefix "y" sid
    then (false, 500%Z, JObj [("error", JStr "backtest failed")])
    else (true, 200%Z,
          JObj [("id", JStr sid); ("name", JStr ("Symphony " +:+ sid));
                ("stats", JObj [("sharpe_ratio", JNum 12 (-1))])])
|}.

Definition number_rows (rows : list row) : dataframe :=
  imap (λ i r, (Z.of_nat i, r)) rows.

Definition demo_dp : DataProcessing := {|
  get_symphonies c :=
    match c with
    | Json (JObj fields) => Some (list_to_map fields)
    | _ => None
    end;
  symphonies_to_df d :=
    number_rows ((λ kv, Row kv.1 {["title" := kv.2]}) <$> map_to_list d);
  response_to_dataframe l :=
    number_rows
      (omap (λ j, match j with
                  | JObj (("symphony_sid", JStr sid) :: _) =>
                      Some (Row sid {["backtest_start_date" := JStr "2020-01-02"]})
                  | _ => None
                  end) l);
  get_backtest_and_symphony_name j :=
    match j with
    | JObj [("id", JStr sid); ("name", JStr name); ("stats", JObj stats)] =>
        Some (Backtest [] [] (list_to_map stats) name sid)
    | _ => None
    end;
  convert_sid_dict_to_df names stats :=
    number_rows
      ((λ kv, Row kv.1 (<["symphony_name" := JStr (default "" (names !! kv.1))]>
                          kv.2)) <$> map_to_list stats)
|}.

Definition demo_fu : FileUtils := {|
  get_csv_name name := "bin/SYMPHONIES-2024-12-29/" +:+ name +:+ ".csv";
  get_start_end_date := ("2020-01-01", "2024-12-29")
|}.

Definition demo_qa : QuantAnalysis := {|
  calculate_quantstats_metrics dict_return :=
    (λ _, {["sharpe_ratio" := JNum 15 (-1); "cagr" := JNum 21 (-2)]})
      <$> dict_return;
  calculate_oos_stats dict_return sid_to_oos :=
    (λ _, {["oos_cagr" := JNum 7 (-2)]}) <$> dict_return
|}.

(** A directory lists the files below it; a directory without files is
    missing. *)
Definition demo_os : Os := {|
  listdir m dirpath :=
    let names :=
      omap (λ p : string,
              if String.prefix (dirpath +:+ "/") p
              then Some (String.substring (String.length dirpath + 1)
                           (String.length p) p)
              else None) (map_to_list m).*1 in
    match names with [] => None | _ => Some names end
|}.

(** Two Discord exports that both mention [s2]. *)
Definition demo_world : world := {|
  fs := {[ "~/source/discord/archive/20241229/a.json" :=
             Json (JObj [("s1", JStr "Alpha"); ("s2", JStr "Beta")]);
           "~/source/discord/archive/20241229/b.json" :=
             Json (JObj [("s2", JStr "Beta again"); ("y3", JStr "Gamma")]) ]};
  trace := []
|}.

(** Three persisted backtests: the second is not a document, and the
    third embeds the identifier of the first. *)
Definition demo_backtest (sid name : string) (sharpe : Z) : json :=
  JObj [("id", JStr sid); ("name", JStr name);
        ("stats", JObj [("sharpe_ratio", JNum sharpe (-1))])].

Definition demo_s1 : string := "bin/BT-2024-12-29/s1.json".
Definition demo_s2 : string := "bin/BT-2024-12-29/s2.json".
Definition demo_s3 : string := "bin/BT-2024-12-29/s3.json".
Definition demo_copy : string := "bin/BT-2024-12-29/copy.json".

Definition demo_disk : world := {|
  fs := {[ demo_s1 := Json (demo_backtest "s1" "Alpha" 12);
           demo_s2 := Raw "<html>502 Bad Gateway</html>";
           demo_s3 := Json (demo_backtest "s3" "Gamma" 7);
           demo_copy := Json (demo_backtest "s1" "Alpha v2" 30) ]};
  trace := []
|}.

(** A frame whose index is not 0, 1, 2, ...: the rows left of a longer
    frame after a filter. *)
Definition retry_frame : dataframe :=
  [(3%Z, Row "s3" ∅); (20%Z, Row "s20" ∅); (40%Z, Row "s40" ∅)].

(** The identifiers [id0 .. id24]; the service fails on [id5] and [id17]. *)
Definition scenario_sids : list string :=
  (λ i : nat, "id" +:+ pretty i) <$> seq 0 25.

Definition scenario_api : ComposerApi := {|
  symphony_reply _ sid :=
    if bool_decide (sid = "id5") || bool_decide (sid = "id17")
    then (false, 429%Z, JNull)
    else (true, 200%Z, JStr sid);
  backtest_reply _ _ _ _ := (false, 404%Z, JNull)
|}.

(** The demo run of the workflow. *)
Definition demo_run : world * option (dataframe * dataframe) :=
  @main_data_collection_workflow demo_api demo_dp demo_fu demo_qa demo_os
    demo_world.

Definition demo_frames : dataframe * dataframe := default ([], []) demo_run.2.

(** ** Reading more of a run *)

(** What a run printed, and how long it paused. *)
Definition prints (tr : list event) : list string :=
  omap (λ e, match e with EvPrint msg => Some msg | _ => None end) tr.

Definition sleeps (tr : list event) : list Z :=
  omap (λ e, match e with EvSleep secs => Some secs | _ => None end) tr.

(** The printed lines that start with [tag]. *)
Definition log_with (tag : string) (tr : list event) : list string :=
  filter (λ msg, String.prefix tag msg = true) (prints tr).

(** The [jsonfiles] of [process_discord_exports]: the entries of the
    listing that are regular files, joined to the directory. *)
Definition export_files (dirpath : string) (names : list string) (w : world)
  : list string :=
  (λ f, join dirpath f) <$> filter (λ f, isfile (join dirpath f) w = true) names.

(** What [get_symphonies] finds in one export file. *)
Definition extraction `{DataProcessing} (target_file : string) (w : world)
  : option (gmap string json) :=
  fs w !! target_file ≫= get_symphonies.

(** The index labels a failure list records. *)
Definition failure_labels (fl : list failure) : list Z := (λ x, x.1.1) <$> fl.

(** The helper modules of the demo, with a response frame that lacks the
    [backtest_start_date] column. *)
Definition demo_dp_plain : DataProcessing := {|
  get_symphonies := @get_symphonies demo_dp;
  symphonies_to_df := @symphonies_to_df demo_dp;
  response_to_dataframe l :=
    number_rows
      (omap (λ j, match j with
                  | JObj (("symphony_sid", JStr sid) :: _) => Some (Row sid ∅)
                  | _ => None
                  end) l);
  get_backtest_and_symphony_name := @get_backtest_and_symphony_name demo_dp;
  convert_sid_dict_to_df := @convert_sid_dict_to_df demo_dp
|}.

(** A disk with one export that is not a document. *)
Definition demo_broken_world : world := {|
  fs := {[ "~/source/discord/archive/20241229/a.json" :=
             Json (JObj [("s1", JStr "Alpha")]);
           "~/source/discord/archive/20241229/b.json" := Raw "not json" ]};
  trace := []
|}.

(** A default-index frame of 45 rows. *)
Definition range_frame : dataframe :=
  (λ i : nat, (Z.of_nat i, Row ("id" +:+ pretty i) ∅)) <$> seq 0 45.

(** ** The steps of the workflow

    The intermediate results of [main_data_collection_workflow] once
    [process_discord_exports] has returned [symphonies_dict] in the
    world [w1], named after the variables of the source. *)

Section Steps.
Context {api : ComposerApi} {dp : DataProcessing} {fu : FileUtils}
        {qa : QuantAnalysis} {os : Os}.
Variables (symphonies_dict : gmap string json) (w1 : world).

(** [df = symphonies_to_df(symphonies_dict)]. *)
Definition step_df : dataframe := symphonies_to_df symphonies_dict.

(** [batch_fetch_symphonies(symphony_sid_list)], run after [df] is saved. *)
Definition step_symphonies : list json * list failure * world :=
  batch_fetch_symphonies (symphony_sid_values step_df)
    (to_csv step_df (get_csv_name "SYMPHONIES") w1).

(** [df_response = response_to_dataframe(response_list)]. *)
Definition step_df_response : dataframe :=
  response_to_dataframe step_symphonies.1.1.

(** The world after [df_response.to_csv(get_csv_name('OOS'))]. *)
Definition step_oos_saved : world :=
  to_csv step_df_response (get_csv_name "OOS") step_symphonies.2.

(** [batch_fetch_backtests(df, start_date, end_date)]. *)
Definition step_backtests : list json * list failure * world :=
  batch_fetch_backtests step_df get_start_end_date.1 get_start_end_date.2
    step_oos_saved.

(** What [batch_fetch_backtests] wrote in that run, oldest first. *)
Definition step_documents : list (string * content) :=
  writes (new_events step_oos_saved step_backtests.2).

(** [process_backtest_results(jsonfiles)]. *)
Definition step_results : dicts * world :=
  process_backtest_results
    (backtest_filename get_start_end_date.2 <$> symphony_sid_values step_df)
    step_backtests.2.

(** [df_backtest_stats] and [df_oos_stats]. *)
Definition step_backtest_stats : dataframe :=
  convert_sid_dict_to_df (dict_name step_results.1)
    (merge_dicts (dict_stats step_results.1)
       (calculate_quantstats_metrics (dict_return step_results.1))).

Definition step_oos_stats (sid_to_oos : gmap string json) : dataframe :=
  convert_sid_dict_to_df (dict_name step_results.1)
    (calculate_oos_stats (dict_return step_results.1) sid_to_oos).

End Steps.

(** ** Properties *)

Section Properties.
Context {api : ComposerApi} {dp : DataProcessing} {fu : FileUtils}
        {qa : QuantAnalysis} {os : Os}.

(** *** Traces *)

Lemma new_events_app w w' delta :
  trace w' = trace w ++ delta → new_events w w' = delta.
Proof. intros Htr. unfold new_events. rewrite Htr. apply drop_app_length. Qed.

Lemma pause_positions_app n a b :
  pause_positions n (a ++ b) =
  pause_positions n a ++
  pause_positions (n + length (symphony_calls a) + length (backtest_calls a)) b.
Proof.
  revert n. induction a as [|e a IH]; intros n; simpl.
  - f_equal. lia.
  - destruct e; simpl; rewrite ?IH; simpl; do 2 f_equal; lia.
Qed.

(** The pause logs [pace_events] and leaves the files alone. *)
Lemma pace_trace idx n w : trace (pace idx n w) = trace w ++ pace_events idx n.
Proof.
  unfold pace, pace_events. destruct (idx mod 20 =? 0)%Z; simpl.
  - by rewrite <- app_assoc.
  - by rewrite app_nil_r.
Qed.

Lemma pace_fs idx n w : fs (pace idx n w) = fs w.
Proof. unfold pace. by destruct (idx mod 20 =? 0)%Z. Qed.

Lemma pace_events_quiet idx n :
  symphony_calls (pace_events idx n) = [] ∧
  backtest_calls (pace_events idx n) = [] ∧
  writes (pace_events idx n) = [].
Proof. unfold pace_events. by destruct (idx mod 20 =? 0)%Z. Qed.

Lemma pace_events_positions k idx n :
  pause_positions k (pace_events idx n) =
  if decide (idx mod 20 = 0)%Z then [k] else [].
Proof.
  unfold pace_events. destruct (Z.eqb_spec (idx mod 20) 0) as [->|Hne].
  - done.
  - by rewrite decide_False.
Qed.

(** *** The symphony fetcher *)

Lemma symphonies_loop_spec l : ∀ idx resp fail w resp' fail' w',
  symphonies_loop idx l resp fail w = (resp', fail', w') →
  ∃ (rs : list reply) (delta : list event),
    length rs = length l ∧
    resp' = resp ++ successes rs ∧
    fail' = fail ++ failures (zip (enumerate_from idx l) rs) ∧
    fs w' = fs w ∧
    trace w' = trace w ++ delta ∧
    symphony_calls delta = l ∧
    backtest_calls delta = [] ∧
    writes delta = [] ∧
    pause_positions idx delta =
      filter (λ p, (Z.of_nat p mod 20 = 0)%Z) (seq idx (length l)) ∧
    (∀ i r, rs !! i = Some r →
       ∃ sid pre post,
         l !! i = Some sid ∧
         delta = pre ++ EvFetchSymphony sid :: post ∧
         length (symphony_calls pre) = i ∧
         r = symphony_reply (trace w ++ pre) sid).
Proof.
  induction l as [|sid rest IH]; intros idx resp fail w resp' fail' w' Hrun.
  - simpl in Hrun. injection Hrun as <- <- <-. exists [], [].
    rewrite !app_nil_r. by split_and!.
  - simpl in Hrun.
    set (w1 := pace (Z.of_nat idx) (length fail) w) in *.
    set (pe := pace_events (Z.of_nat idx) (length fail)).
    destruct (symphony_reply (trace w1) sid) as [[ok code] data] eqn:Hreply.
    destruct (pace_events_quiet (Z.of_nat idx) (length fail)) as (Hq1 & Hq2 & Hq3).
    fold pe in Hq1, Hq2, Hq3.
    assert (Hw1 : trace w1 = trace w ++ pe) by apply pace_trace.
    assert (Hpos : ∀ tail,
      pause_positions idx (pe ++ EvFetchSymphony sid :: tail) =
      (if decide (Z.of_nat idx mod 20 = 0)%Z then [idx] else []) ++
      pause_positions (S idx) tail).
    { intros tail. unfold pe.
      rewrite pause_positions_app, pace_events_positions. fold pe.
      rewrite Hq1, Hq2. simpl. do 2 f_equal. lia. }
    assert (Hc0 : ∀ tail,
      symphony_calls (pe ++ EvFetchSymphony sid :: tail) =
      sid :: symphony_calls tail).
    { intros tail. unfold symphony_calls in *. by rewrite omap_app, Hq1. }
    assert (Hb0 : ∀ tail,
      backtest_calls (pe ++ EvFetchSymphony sid :: tail) = backtest_calls tail).
    { intros tail. unfold backtest_calls in *. by rewrite omap_app, Hq2. }
    assert (Hw0 : ∀ tail,
      writes (pe ++ EvFetchSymphony sid :: tail) = writes tail).
    { intros tail. unfold writes in *. by rewrite omap_app, Hq3. }
    assert (Htr0 : ∀ tail,
      trace (emit (EvFetchSymphony sid) w1) ++ tail =
      trace w ++ pe ++ EvFetchSymphony sid :: tail).
    { intros tail. simpl. by rewrite Hw1, <- !app_assoc. }
    assert (Hties : ∀ (b : bool) rs delta,
      (∀ i r, rs !! i = Some r →
         ∃ sid' pre post,
           rest !! i = Some sid' ∧
           delta = pre ++ EvFetchSymphony sid' :: post ∧
           length (symphony_calls pre) = i ∧
           r = symphony_reply (trace (emit (EvFetchSymphony sid) w1) ++ pre) sid') →
      ∀ i r, ((ok, code, data) :: rs) !! i = Some r →
         ∃ sid' pre post,
           (sid :: rest) !! i = Some sid' ∧
           pe ++ EvFetchSymphony sid :: delta = pre ++ EvFetchSymphony sid' :: post ∧
           length (symphony_calls pre) = i ∧
           r = symphony_reply (trace w ++ pre) sid').
    { intros _ rs delta Htie [|i] r Hi; simpl in Hi.
      - injection Hi as <-. exists sid, pe, delta. rewrite Hq1, <- Hw1. done.
      - destruct (Htie i r Hi) as (sid' & pre & post & Hl & -> & Hn & ->).
        exists sid', (pe ++ EvFetchSymphony sid :: pre), post.
        rewrite Hc0, Htr0, <- !app_assoc. simpl. split_and!; try done.
        by rewrite Hn. }
    destruct ok; apply IH in Hrun
      as (rs & delta & Hlen & -> & -> & Hfs & Htr & Hc & Hb & Hw & Hp & Htie);
      [exists ((true, code, data) :: rs) | exists ((false, code, data) :: rs)];
      exists (pe ++ EvFetchSymphony sid :: delta);
      rewrite Hc0, Hb0, Hw0, Hpos, Hp, Hc, <- Htr0, Htr, Hfs;
      (split_and!;
       [ simpl; congruence
       | by rewrite <- ?app_assoc
       | by rewrite <- ?app_assoc
       | apply pace_fs
       | done | done | done | done
       | simpl; rewrite filter_cons; by case_decide
       | by apply (Hties true) ]).
Qed.

Lemma tally_length (rs : list reply) : ∀ labelled : list (Z * string),
  length labelled = length rs →
  length (successes rs) + length (failures (zip labelled rs)) = length rs.
Proof.
  induction rs as [|[[ok code] data] rs IH]; intros [|x labelled] Hlen;
    simpl in *; try done.
  injection Hlen as Hlen. specialize (IH _ Hlen).
  unfold successes, failures in *. destruct ok; simpl; lia.
Qed.

Lemma length_enumerate_from {A} k (l : list A) :
  length (enumerate_from k l) = length l.
Proof.
  unfold enumerate_from.
  rewrite length_zip_with, length_fmap, length_seq. lia.
Qed.

(** C1.  For a list of N identifiers, [batch_fetch_symphonies] makes
    exactly one [fetch_symphony] call per element, in order (N calls),
    and every element lands in exactly one of the two result lists, by
    the [ok] flag the remote service answered at that call: the response
    list holds the documents of the successful calls, the failure list
    the [(idx, sid, status_code)] of the others, and the two lengths sum
    to N. *)
Theorem batch_fetch_symphonies_tally (symphony_sid_list : list string) (w : world) :
  ∃ rs : list reply,
    length rs = length symphony_sid_list ∧
    (∀ i r, rs !! i = Some r →
       ∃ sid pre post,
         symphony_sid_list !! i = Some sid ∧
         new_events w (batch_fetch_symphonies symphony_sid_list w).2 =
           pre ++ EvFetchSymphony sid :: post ∧
         length (symphony_calls pre) = i ∧
         r = symphony_reply (trace w ++ pre) sid) ∧
    symphony_calls (new_events w (batch_fetch_symphonies symphony_sid_list w).2) =
      symphony_sid_list ∧
    (batch_fetch_symphonies symphony_sid_list w).1.1 = successes rs ∧
    (batch_fetch_symphonies symphony_sid_list w).1.2 =
      failures (zip (enumerate symphony_sid_list) rs) ∧
    length (batch_fetch_symphonies symphony_sid_list w).1.1 +
    length (batch_fetch_symphonies symphony_sid_list w).1.2 =
      length symphony_sid_list.
Proof.
  unfold batch_fetch_symphonies.
  destruct (symphonies_loop 0 symphony_sid_list [] [] w)
    as [[response_list failure_list] w'] eqn:Hrun.
  apply symphonies_loop_spec in Hrun
    as (rs & delta & Hlen & -> & -> & _ & Htr & Hc & _ & _ & _ & Htie).
  apply new_events_app in Htr. simpl. rewrite Htr.
  exists rs. split_and!; try done.
  rewrite <- Hlen. apply tally_length.
  unfold enumerate. by rewrite length_enumerate_from.
Qed.

(** Pacing of the symphony fetcher: the pauses of a run are exactly at
    the positions 0, 20, 40, ... of its calls, whatever the remote
    service answers. *)
Lemma batch_fetch_symphonies_pacing (symphony_sid_list : list string) (w : world) :
  pause_positions 0
    (new_events w (batch_fetch_symphonies symphony_sid_list w).2) =
  every_20th (length symphony_sid_list).
Proof.
  unfold batch_fetch_symphonies.
  destruct (symphonies_loop 0 symphony_sid_list [] [] w)
    as [[response_list failure_list] w'] eqn:Hrun.
  apply symphonies_loop_spec in Hrun
    as (rs & delta & _ & _ & _ & _ & Htr & _ & _ & _ & Hp & _).
  apply new_events_app in Htr. simpl. by rewrite Htr.
Qed.

(** *** The backtest fetcher *)

Lemma string_app_inj_r (t s1 s2 : string) : s1 +:+ t = s2 +:+ t → s1 = s2.
Proof.
  assert (Hlen : ∀ a b : string,
            String.length (a +:+ b) = String.length a + String.length b).
  { intros a b. induction a as [|c a IH]; simpl; [done | by rewrite IH]. }
  revert s2. induction s1 as [|c s1 IH]; intros [|c2 s2] Heq.
  - done.
  - apply (f_equal String.length) in Heq. rewrite !Hlen in Heq.
    simpl in Heq. lia.
  - apply (f_equal String.length) in Heq. rewrite !Hlen in Heq.
    simpl in Heq. lia.
  - simpl in Heq. injection Heq as -> Heq. f_equal. by apply IH.
Qed.

Lemma backtest_filename_inj end_date sid1 sid2 :
  backtest_filename end_date sid1 = backtest_filename end_date sid2 →
  sid1 = sid2.
Proof.
  unfold backtest_filename. intros Heq.
  apply (inj (String.app "bin/BT-")) in Heq.
  apply (inj (String.app end_date)) in Heq.
  apply (inj (String.app "/")) in Heq.
  by apply string_app_inj_r in Heq.
Qed.

Lemma fs_after_app m ws1 ws2 :
  fs_after m (ws1 ++ ws2) = fs_after (fs_after m ws1) ws2.
Proof. apply foldl_app. Qed.

(** A file holds what was last written to it. *)
Lemma fs_after_lookup m ws p :
  fs_after m ws !! p =
  match last (snd <$> filter (λ pc, pc.1 = p) ws) with
  | Some c => Some c
  | None => m !! p
  end.
Proof.
  induction ws as [|[q c] ws IH] using rev_ind; [done|].
  rewrite fs_after_app, filter_app, fmap_app, last_app. simpl.
  rewrite filter_cons. simpl. case_decide as Hq; simpl.
  - subst q. by rewrite lookup_insert_eq.
  - by rewrite lookup_insert_ne.
Qed.

Lemma fs_after_frame m ws p :
  p ∉ ws.*1 → fs_after m ws !! p = m !! p.
Proof.
  revert m. induction ws as [|[q c] ws IH]; intros m Hp; [done|].
  simpl in *. apply not_elem_of_cons in Hp as [Hne Hp].
  change (fs_after (<[q:=c]> m) ws !! p = m !! p).
  rewrite IH by done. by apply lookup_insert_ne.
Qed.

Lemma fs_after_last m ws1 ws2 p c :
  p ∉ ws2.*1 → fs_after m (ws1 ++ (p, c) :: ws2) !! p = Some c.
Proof.
  intros Hp. rewrite fs_after_app. simpl.
  change (fs_after (<[p:=c]> (fs_after m ws1)) ws2 !! p = Some c).
  rewrite fs_after_frame by done. apply lookup_insert_eq.
Qed.

Lemma backtests_loop_spec df : ∀ k s e rl fl w rl' fl' w',
  backtests_loop df s e rl fl w = (rl', fl', w') →
  ∃ (rs : list reply) (delta : list event),
    length rs = length df ∧
    rl' = rl ++ successes rs ∧
    fl' = fl ++ failures (zip (labelled_sids df) rs) ∧
    trace w' = trace w ++ delta ∧
    fs w' = fs_after (fs w) (writes delta) ∧
    writes delta = zip_with (persisted e) df rs ∧
    backtest_calls delta = (λ x, (symphony_sid x.2, s, e)) <$> df ∧
    symphony_calls delta = [] ∧
    pause_positions k delta = paced_rows k df.*1 ∧
    (∀ i r, rs !! i = Some r →
       ∃ x pre post,
         df !! i = Some x ∧
         delta = pre ++ EvFetchBacktest (symphony_sid x.2) s e ::
                   EvWrite (backtest_filename e (symphony_sid x.2)) (Json r.2) ::
                   post ∧
         length (backtest_calls pre) = i ∧
         r = backtest_reply (trace w ++ pre) (symphony_sid x.2) s e).
Proof.
  induction df as [|[idx x] rest IH]; intros k s e rl fl w rl' fl' w' Hrun.
  - simpl in Hrun. injection Hrun as <- <- <-. exists [], [].
    rewrite !app_nil_r. by split_and!.
  - simpl in Hrun.
    set (w1 := pace idx (length fl) w) in *.
    set (pe := pace_events idx (length fl)).
    set (sid := symphony_sid x) in *.
    set (call := EvFetchBacktest sid s e) in *.
    destruct (backtest_reply (trace w1) sid s e) as [[ok code] jsond] eqn:Hreply.
    set (wr := EvWrite (backtest_filename e sid) (Json jsond)).
    set (w3 := write_json jsond (backtest_filename e sid) (emit call w1)) in *.
    destruct (pace_events_quiet idx (length fl)) as (Hq1 & Hq2 & Hq3).
    fold pe in Hq1, Hq2, Hq3.
    assert (Hw1 : trace w1 = trace w ++ pe) by apply pace_trace.
    assert (Hpos : ∀ tail,
      pause_positions k (pe ++ call :: wr :: tail) =
      (if decide (idx mod 20 = 0)%Z then [k] else []) ++
      pause_positions (S k) tail).
    { intros tail. unfold pe.
      rewrite pause_positions_app, pace_events_positions. fold pe.
      rewrite Hq1, Hq2. simpl. do 2 f_equal. lia. }
    assert (Hc0 : ∀ tail,
      symphony_calls (pe ++ call :: wr :: tail) = symphony_calls tail).
    { intros tail. unfold symphony_calls in *. by rewrite omap_app, Hq1. }
    assert (Hb0 : ∀ tail,
      backtest_calls (pe ++ call :: wr :: tail) =
      (sid, s, e) :: backtest_calls tail).
    { intros tail. unfold backtest_calls in *. by rewrite omap_app, Hq2. }
    assert (Hw0 : ∀ tail,
      writes (pe ++ call :: wr :: tail) =
      (backtest_filename e sid, Json jsond) :: writes tail).
    { intros tail. unfold writes in *. by rewrite omap_app, Hq3. }
    assert (Htr0 : ∀ tail,
      trace w3 ++ tail = trace w ++ pe ++ call :: wr :: tail).
    { intros tail. simpl. by rewrite Hw1, <- !app_assoc. }
    assert (Hfs0 : ∀ ws,
      fs_after (fs w3) ws =
      fs_after (fs w) ((backtest_filename e sid, Json jsond) :: ws)).
    { intros ws. simpl. unfold w1. by rewrite pace_fs. }
    assert (Hties : ∀ rs delta,
      (∀ i r, rs !! i = Some r →
         ∃ y pre post,
           rest !! i = Some y ∧
           delta = pre ++ EvFetchBacktest (symphony_sid y.2) s e ::
                     EvWrite (backtest_filename e (symphony_sid y.2)) (Json r.2) ::
                     post ∧
           length (backtest_calls pre) = i ∧
           r = backtest_reply (trace w3 ++ pre) (symphony_sid y.2) s e) →
      ∀ i r, ((ok, code, jsond) :: rs) !! i = Some r →
         ∃ y pre post,
           ((idx, x) :: rest) !! i = Some y ∧
           pe ++ call :: wr :: delta =
             pre ++ EvFetchBacktest (symphony_sid y.2) s e ::
               EvWrite (backtest_filename e (symphony_sid y.2)) (Json r.2) ::
               post ∧
           length (backtest_calls pre) = i ∧
           r = backtest_reply (trace w ++ pre) (symphony_sid y.2) s e).
    { intros rs delta Htie [|i] r Hi; simpl in Hi.
      - injection Hi as <-. exists (idx, x), pe, delta. rewrite Hq2, <- Hw1. done.
      - destruct (Htie i r Hi) as (y & pre & post & Hl & -> & Hn & ->).
        exists y, (pe ++ call :: wr :: pre), post.
        rewrite Hb0, Htr0, <- !app_assoc. simpl. split_and!; try done.
        by rewrite Hn. }
    assert (Hrows : paced_rows k ((idx, x) :: rest).*1 =
      (if decide (idx mod 20 = 0)%Z then [k] else []) ++
      paced_rows (S k) rest.*1).
    { unfold paced_rows. simpl. by case_decide. }
    destruct ok; apply (IH (S k)) in Hrun
      as (rs & delta & Hlen & -> & -> & Htr & Hfs & Hw & Hb & Hc & Hp & Htie);
      [exists ((true, code, jsond) :: rs) | exists ((false, code, jsond) :: rs)];
      exists (pe ++ call :: wr :: delta);
      rewrite Hc0, Hb0, Hw0, Hpos, Hp, Hc, Hb, Hw, <- Htr0, Htr, Hfs, Hw, Hfs0,
        Hrows;
      (split_and!;
       [ simpl; congruence
       | by rewrite <- ?app_assoc
       | by rewrite <- ?app_assoc
       | done | done | done | done | done | done
       | by apply Hties ]).
Qed.

Lemma fs_after_json m ws p :
  Forall (λ pc : string * content, ∃ j, pc.2 = Json j) ws →
  p ∈ ws.*1 →
  ∃ j, fs_after m ws !! p = Some (Json j).
Proof.
  induction ws as [|[q c] ws IH] using rev_ind; intros Hall Hin.
  - by apply elem_of_nil in Hin.
  - apply Forall_app in Hall as [Hall Hq]. apply Forall_singleton in Hq as [j Hj].
    simpl in Hj. subst c. rewrite fs_after_app. simpl.
    destruct (decide (q = p)) as [->|Hne].
    + exists j. apply lookup_insert_eq.
    + rewrite lookup_insert_ne by done. apply IH; [done|].
      rewrite fmap_app in Hin. apply elem_of_app in Hin as [Hin|Hin]; [done|].
      apply list_elem_of_singleton in Hin. simpl in Hin. congruence.
Qed.

Lemma persisted_all_json e df (rs : list reply) :
  Forall (λ pc : string * content, ∃ j, pc.2 = Json j)
    (zip_with (persisted e) df rs).
Proof.
  apply Forall_forall. intros pc Hin.
  apply elem_of_zip_with in Hin as (x & r & -> & _ & _). by eexists.
Qed.

Lemma persisted_row_present e df (rs : list reply) x :
  length rs = length df → x ∈ df →
  backtest_filename e (symphony_sid x.2) ∈ (zip_with (persisted e) df rs).*1.
Proof.
  intros Hlen Hin. apply list_elem_of_lookup in Hin as [i Hi].
  destruct (lookup_lt_is_Some_2 rs i) as [r Hr].
  { rewrite Hlen. by eapply lookup_lt_Some. }
  apply list_elem_of_fmap. exists (persisted e x r). split; [done|].
  apply list_elem_of_lookup. exists i. apply lookup_zip_with_Some. eauto.
Qed.

Lemma failures_row (df : dataframe) (rs : list reply) idx sid code :
  (idx, sid, code) ∈ failures (zip (labelled_sids df) rs) →
  ∃ x, x ∈ df ∧ symphony_sid x.2 = sid.
Proof.
  unfold failures. intros Hin.
  apply list_elem_of_omap in Hin as ([[lbl sid'] r] & Hin & Hsome).
  apply elem_of_zip_l in Hin. unfold labelled_sids in Hin.
  apply list_elem_of_fmap in Hin as (x & Hx & Hin).
  simpl in Hsome. destruct (r.1.1); [done|]. exists x. split; [done|].
  congruence.
Qed.

(** C3.  [batch_fetch_backtests] writes the raw response of every row to
    [bin/BT-{end_date}/{sid}.json] right after the fetch and before it
    looks at the [ok] flag: in the log each call is followed at once by
    the write of what that call answered, so every row, and every
    identifier of the failure list, has its file afterwards; the file
    holds the answer of the last row carrying that identifier. *)
Theorem batch_fetch_backtests_persists (df : dataframe)
    (start_date end_date : string) (w : world) :
  ∃ rs : list reply,
    length rs = length df ∧
    (∀ i r, rs !! i = Some r →
       ∃ x pre post,
         df !! i = Some x ∧
         new_events w (batch_fetch_backtests df start_date end_date w).2 =
           pre ++ EvFetchBacktest (symphony_sid x.2) start_date end_date ::
             EvWrite (backtest_filename end_date (symphony_sid x.2)) (Json r.2) ::
             post ∧
         length (backtest_calls pre) = i ∧
         r = backtest_reply (trace w ++ pre) (symphony_sid x.2)
               start_date end_date) ∧
    (batch_fetch_backtests df start_date end_date w).1.1 = successes rs ∧
    (batch_fetch_backtests df start_date end_date w).1.2 =
      failures (zip (labelled_sids df) rs) ∧
    (∀ x, x ∈ df →
       ∃ j, fs (batch_fetch_backtests df start_date end_date w).2
              !! backtest_filename end_date (symphony_sid x.2) = Some (Json j)) ∧
    (∀ idx sid code,
       (idx, sid, code) ∈ (batch_fetch_backtests df start_date end_date w).1.2 →
       ∃ j, fs (batch_fetch_backtests df start_date end_date w).2
              !! backtest_filename end_date sid = Some (Json j)) ∧
    (∀ i x r, df !! i = Some x → rs !! i = Some r →
       (∀ i' y, i < i' → df !! i' = Some y →
                symphony_sid y.2 ≠ symphony_sid x.2) →
       fs (batch_fetch_backtests df start_date end_date w).2
         !! backtest_filename end_date (symphony_sid x.2) = Some (Json r.2)).
Proof.
  unfold batch_fetch_backtests.
  destruct (backtests_loop df start_date end_date [] [] w)
    as [[rlist flist] w'] eqn:Hrun.
  apply (backtests_loop_spec df 0) in Hrun
    as (rs & delta & Hlen & -> & -> & Htr & Hfs & Hw & _ & _ & _ & Htie).
  apply new_events_app in Htr. simpl. rewrite Htr, Hfs, Hw.
  assert (Hrow : ∀ x, x ∈ df →
    ∃ j, fs_after (fs w) (zip_with (persisted end_date) df rs)
           !! backtest_filename end_date (symphony_sid x.2) = Some (Json j)).
  { intros x Hin. apply fs_after_json.
    - apply persisted_all_json.
    - by apply persisted_row_present. }
  exists rs. split_and!; try done.
  - intros idx sid code Hin.
    apply failures_row in Hin as (x & Hin & <-). by apply Hrow.
  - intros i x r Hi Hr Hlater.
    rewrite <- (take_drop_middle df i x Hi), <- (take_drop_middle rs i r Hr).
    rewrite zip_with_app.
    2:{ rewrite !length_take. lia. }
    simpl. apply fs_after_last. intros Hin.
    apply list_elem_of_fmap in Hin as (pc & Hpc & Hin).
    apply list_elem_of_lookup in Hin as [n Hn].
    apply lookup_zip_with_Some in Hn as (y & r' & -> & Hy & _).
    rewrite lookup_drop in Hy. simpl in Hpc.
    apply backtest_filename_inj in Hpc.
    by apply (Hlater (S i + n) y); [lia| |].
Qed.

(** C7.  [batch_fetch_symphonies] persists nothing: the files after a
    run are the files before it and the run logs no write, whereas
    [batch_fetch_backtests] logs one write per row. *)
Theorem batch_fetch_symphonies_no_persistence
    (symphony_sid_list : list string) (w : world) :
  fs (batch_fetch_symphonies symphony_sid_list w).2 = fs w ∧
  writes (new_events w (batch_fetch_symphonies symphony_sid_list w).2) = [] ∧
  ∀ (df : dataframe) (start_date end_date : string),
    length (writes (new_events w
              (batch_fetch_backtests df start_date end_date w).2)) = length df.
Proof.
  split_and!.
  - unfold batch_fetch_symphonies.
    destruct (symphonies_loop 0 symphony_sid_list [] [] w)
      as [[response_list failure_list] w'] eqn:Hrun.
    by apply symphonies_loop_spec in Hrun as (_ & _ & _ & _ & _ & Hfs & _).
  - unfold batch_fetch_symphonies.
    destruct (symphonies_loop 0 symphony_sid_list [] [] w)
      as [[response_list failure_list] w'] eqn:Hrun.
    apply symphonies_loop_spec in Hrun
      as (rs & delta & _ & _ & _ & _ & Htr & _ & _ & Hw & _).
    apply new_events_app in Htr. simpl. by rewrite Htr.
  - intros df start_date end_date. unfold batch_fetch_backtests.
    destruct (backtests_loop df start_date end_date [] [] w)
      as [[rlist flist] w'] eqn:Hrun.
    apply (backtests_loop_spec df 0) in Hrun
      as (rs & delta & Hlen & _ & _ & Htr & _ & Hw & _).
    apply new_events_app in Htr. simpl. rewrite Htr, Hw.
    rewrite length_zip_with. lia.
Qed.

(** Pacing of the backtest fetcher: a row is paused before when its
    index label is a multiple of 20, whatever its position. *)
Lemma batch_fetch_backtests_pacing (df : dataframe)
    (start_date end_date : string) (w : world) :
  pause_positions 0
    (new_events w (batch_fetch_backtests df start_date end_date w).2) =
  paced_rows 0 df.*1.
Proof.
  unfold batch_fetch_backtests.
  destruct (backtests_loop df start_date end_date [] [] w)
    as [[rlist flist] w'] eqn:Hrun.
  apply (backtests_loop_spec df 0) in Hrun
    as (rs & delta & _ & _ & _ & Htr & _ & _ & _ & _ & Hp & _).
  apply new_events_app in Htr. simpl. by rewrite Htr.
Qed.

Lemma paced_rows_range n : ∀ k,
  paced_rows k (Z.of_nat <$> seq k n) =
  filter (λ p, (Z.of_nat p mod 20 = 0)%Z) (seq k n).
Proof.
  induction n as [|n IH]; intros k; [done|].
  unfold paced_rows in *. rewrite length_fmap, length_seq. simpl.
  specialize (IH (S k)). rewrite length_fmap, length_seq in IH.
  rewrite filter_cons. csimpl.
  destruct (decide (Z.of_nat k mod 20 = 0)%Z); simpl; f_equal; exact IH.
Qed.

(** On a frame with the default index 0, 1, 2, ... the backtest fetcher
    pauses exactly at the positions 0, 20, 40, ... *)
Lemma batch_fetch_backtests_pacing_range (df : dataframe)
    (start_date end_date : string) (w : world) :
  df.*1 = Z.of_nat <$> seq 0 (length df) →
  pause_positions 0
    (new_events w (batch_fetch_backtests df start_date end_date w).2) =
  every_20th (length df).
Proof.
  intros Hrange. rewrite batch_fetch_backtests_pacing, Hrange.
  apply paced_rows_range.
Qed.

(** *** The backtest result processor *)

Lemma put_all_app {A V} (key : A → string) (val : A → V) m l1 l2 :
  put_all key val m (l1 ++ l2) = put_all key val (put_all key val m l1) l2.
Proof. apply foldl_app. Qed.

Lemma put_all_frame {A V} (key : A → string) (val : A → V) l : ∀ m k,
  k ∉ key <$> l → put_all key val m l !! k = m !! k.
Proof.
  induction l as [|a l IH]; intros m k Hk; [done|].
  simpl in *. apply not_elem_of_cons in Hk as [Hne Hk].
  change (put_all key val (<[key a := val a]> m) l !! k = m !! k).
  rewrite IH by done. by apply lookup_insert_ne.
Qed.

Lemma put_all_last {A V} (key : A → string) (val : A → V) m l1 a l2 :
  key a ∉ key <$> l2 →
  put_all key val m (l1 ++ a :: l2) !! key a = Some (val a).
Proof.
  intros Hk. rewrite put_all_app.
  change (put_all key val (<[key a := val a]> (put_all key val m l1)) l2
            !! key a = Some (val a)).
  rewrite put_all_frame by done. apply lookup_insert_eq.
Qed.

Lemma put_all_dom {A V} (key : A → string) (val : A → V) l : ∀ m,
  dom (put_all key val m l) = dom m ∪ list_to_set (key <$> l).
Proof.
  induction l as [|a l IH]; intros m; simpl.
  - by rewrite union_empty_r_L.
  - change (dom (put_all key val (<[key a := val a]> m) l) =
            dom m ∪ ({[key a]} ∪ list_to_set (key <$> l))).
    rewrite IH, dom_insert_L, (comm_L (∪) {[key a]} (dom m)).
    by rewrite (assoc_L (∪)).
Qed.

Lemma collect_dicts bs : ∀ d,
  dict_allocation (collect bs d) =
    put_all bt_id bt_allocations (dict_allocation d) bs ∧
  dict_return (collect bs d) = put_all bt_id bt_return (dict_return d) bs ∧
  dict_stats (collect bs d) = put_all bt_id bt_stats (dict_stats d) bs ∧
  dict_name (collect bs d) = put_all bt_id bt_symphony_name (dict_name d) bs.
Proof.
  induction bs as [|b bs IH]; intros d; [done|].
  destruct (IH (store_backtest b d)) as (Ha & Hr & Hs & Hn).
  simpl. unfold collect in *. by rewrite Ha, Hr, Hs, Hn.
Qed.

Lemma load_backtest_fs f w1 w2 :
  fs w1 = fs w2 → load_backtest f w1 = load_backtest f w2.
Proof. intros Hfs. unfold load_backtest, read_json. by rewrite Hfs. Qed.

Lemma loaded_fs files w1 w2 : fs w1 = fs w2 → loaded files w1 = loaded files w2.
Proof.
  intros Hfs. unfold loaded. induction files as [|f files IH]; [done|].
  csimpl. by rewrite IH, (load_backtest_fs f w1 w2 Hfs).
Qed.

Lemma prints_quiet (delta : list event) :
  Forall (λ e, ∃ msg, e = EvPrint msg) delta →
  writes delta = [] ∧ symphony_calls delta = [] ∧ backtest_calls delta = [].
Proof.
  induction 1 as [|e delta [msg ->] _ IH]; [done|].
  destruct IH as (Hw & Hs & Hb). unfold writes, symphony_calls, backtest_calls in *.
  csimpl. by rewrite Hw, Hs, Hb.
Qed.

Lemma backtest_results_loop_spec files : ∀ index d w d' w',
  backtest_results_loop index files d w = (d', w') →
  d' = collect (loaded files w) d ∧
  fs w' = fs w ∧
  ∃ delta,
    trace w' = trace w ++ delta ∧
    Forall (λ e, ∃ msg, e = EvPrint msg) delta ∧
    ∀ f, f ∈ files → load_backtest f w = None →
         EvPrint ("Fail jsonfile " +:+ f) ∈ delta.
Proof.
  induction files as [|f rest IH]; intros index d w d' w' Hrun.
  - simpl in Hrun. injection Hrun as <- <-. split_and!; try done.
    exists []. rewrite app_nil_r. split_and!; try done.
    intros f Hf. by apply elem_of_nil in Hf.
  - simpl in Hrun.
    set (w1 := if (Z.of_nat index mod 20 =? 0)%Z
               then print ("Index: " +:+ pretty index) w else w) in *.
    assert (Hw1 : fs w1 = fs w ∧
              ∃ pe, trace w1 = trace w ++ pe ∧
                    Forall (λ e, ∃ msg, e = EvPrint msg) pe).
    { unfold w1. destruct (Z.of_nat index mod 20 =? 0)%Z; (split; [done|]).
      - eexists [_]. split; [done|]. apply Forall_singleton. by eexists.
      - exists []. by rewrite app_nil_r. }
    destruct Hw1 as (Hfs1 & pe & Htr1 & Hpe).
    pose proof (load_backtest_fs f w1 w Hfs1) as Hload.
    assert (Hcons : loaded (f :: rest) w =
              match load_backtest f w1 with
              | Some b => b :: loaded rest w
              | None => loaded rest w
              end).
    { by rewrite Hload. }
    rewrite Hcons.
    destruct (load_backtest f w1) as [b|] eqn:Hb;
      apply IH in Hrun as (-> & Hfs & delta & Htr & Hdelta & Hfail).
    + rewrite (loaded_fs rest w1 w Hfs1). split_and!; [done|congruence|].
      exists (pe ++ delta). rewrite Htr, Htr1, <- app_assoc.
      split_and!; [done|by apply Forall_app|].
      intros g Hg Hnone. apply elem_of_app. right.
      apply elem_of_cons in Hg as [->|Hg]; [congruence|].
      apply Hfail; [done|]. by rewrite (load_backtest_fs g _ w).
    + rewrite (loaded_fs rest (print ("Fail jsonfile " +:+ f) w1) w Hfs1).
      split_and!; [done|by rewrite Hfs|].
      exists (pe ++ EvPrint ("Fail jsonfile " +:+ f) :: delta).
      rewrite Htr. simpl. rewrite Htr1, <- !app_assoc.
      split_and!; [done| |].
      * apply Forall_app. split; [done|]. apply Forall_cons. split; [by eexists|done].
      * intros g Hg Hnone. apply elem_of_app. right.
        apply elem_of_cons in Hg as [->|Hg]; [by left|]. right.
        apply Hfail; [done|]. by rewrite (load_backtest_fs g _ w).
Qed.

Lemma process_backtest_results_collect (jsonfiles : list string) (w : world) :
  (process_backtest_results jsonfiles w).1 =
  collect (loaded jsonfiles w) (Dicts ∅ ∅ ∅ ∅).
Proof.
  unfold process_backtest_results.
  destruct (backtest_results_loop 0 jsonfiles (Dicts ∅ ∅ ∅ ∅) w)
    as [d' w'] eqn:Hrun.
  by apply backtest_results_loop_spec in Hrun as (-> & _).
Qed.

Lemma process_backtest_results_dom (jsonfiles : list string) (w : world) :
  dom (dict_allocation (process_backtest_results jsonfiles w).1) =
    list_to_set (bt_id <$> loaded jsonfiles w) ∧
  dom (dict_return (process_backtest_results jsonfiles w).1) =
    list_to_set (bt_id <$> loaded jsonfiles w) ∧
  dom (dict_stats (process_backtest_results jsonfiles w).1) =
    list_to_set (bt_id <$> loaded jsonfiles w) ∧
  dom (dict_name (process_backtest_results jsonfiles w).1) =
    list_to_set (bt_id <$> loaded jsonfiles w).
Proof.
  rewrite process_backtest_results_collect.
  destruct (collect_dicts (loaded jsonfiles w) (Dicts ∅ ∅ ∅ ∅))
    as (-> & -> & -> & ->).
  rewrite !put_all_dom. simpl. rewrite !dom_empty_L.
  by rewrite !union_empty_l_L.
Qed.

(** C8.  The four dictionaries [process_backtest_results] returns have
    the same key set, whatever the files hold: the identifiers of the
    files that were read and extracted, each stored into all four; a
    file that fails is stored into none. *)
Theorem process_backtest_results_same_keys (jsonfiles : list string) (w : world) :
  dom (dict_allocation (process_backtest_results jsonfiles w).1) =
    list_to_set (bt_id <$> loaded jsonfiles w) ∧
  dom (dict_return (process_backtest_results jsonfiles w).1) =
    dom (dict_allocation (process_backtest_results jsonfiles w).1) ∧
  dom (dict_stats (process_backtest_results jsonfiles w).1) =
    dom (dict_allocation (process_backtest_results jsonfiles w).1) ∧
  dom (dict_name (process_backtest_results jsonfiles w).1) =
    dom (dict_allocation (process_backtest_results jsonfiles w).1).
Proof.
  destruct (process_backtest_results_dom jsonfiles w) as (-> & -> & -> & ->).
  done.
Qed.

Lemma loaded_app l1 l2 w : loaded (l1 ++ l2) w = loaded l1 w ++ loaded l2 w.
Proof. apply omap_app. Qed.

Lemma loaded_lookup files w b :
  b ∈ loaded files w →
  ∃ i f, files !! i = Some f ∧ load_backtest f w = Some b.
Proof.
  unfold loaded. intros Hin.
  apply list_elem_of_omap in Hin as (f & Hf & Hload).
  apply list_elem_of_lookup in Hf as [i Hi]. eauto.
Qed.

(** What the dictionaries hold for an identifier is what the last file
    embedding it holds. *)
Lemma process_backtest_results_entry (jsonfiles : list string) (w : world)
    i f b :
  jsonfiles !! i = Some f →
  load_backtest f w = Some b →
  (∀ i' f' b', i < i' → jsonfiles !! i' = Some f' →
               load_backtest f' w = Some b' → bt_id b' ≠ bt_id b) →
  dict_allocation (process_backtest_results jsonfiles w).1 !! bt_id b =
    Some (bt_allocations b) ∧
  dict_return (process_backtest_results jsonfiles w).1 !! bt_id b =
    Some (bt_return b) ∧
  dict_stats (process_backtest_results jsonfiles w).1 !! bt_id b =
    Some (bt_stats b) ∧
  dict_name (process_backtest_results jsonfiles w).1 !! bt_id b =
    Some (bt_symphony_name b).
Proof.
  intros Hi Hload Hlater. rewrite process_backtest_results_collect.
  destruct (collect_dicts (loaded jsonfiles w) (Dicts ∅ ∅ ∅ ∅))
    as (-> & -> & -> & ->).
  rewrite <- (take_drop_middle jsonfiles i f Hi), loaded_app.
  assert (Hcons : loaded (f :: drop (S i) jsonfiles) w =
                  b :: loaded (drop (S i) jsonfiles) w).
  { unfold loaded. csimpl. by rewrite Hload. }
  rewrite Hcons.
  assert (Hfresh : bt_id b ∉ bt_id <$> loaded (drop (S i) jsonfiles) w).
  { intros Hin. apply list_elem_of_fmap in Hin as (b' & Hid & Hin).
    apply loaded_lookup in Hin as (n & f' & Hn & Hload').
    rewrite lookup_drop in Hn.
    by apply (Hlater (S i + n) f' b'); [lia| | |]. }
  split_and!; by apply put_all_last.
Qed.

(** C4.  A batch with exactly one malformed file does not abort
    [process_backtest_results]: the file is logged and skipped, the
    result is that of the batch without it, so its keys are exactly the
    identifiers of the other files (the malformed one contributes none)
    and every other file's entries are there with the values extracted
    from it (from the last file, should two embed one identifier). *)
Theorem process_backtest_results_skips_malformed
    (before : list string) (bad : string) (after : list string) (w : world) :
  load_backtest bad w = None →
  Forall (λ f, is_Some (load_backtest f w)) (before ++ after) →
  (process_backtest_results (before ++ bad :: after) w).1 =
    (process_backtest_results (before ++ after) w).1 ∧
  EvPrint ("Fail jsonfile " +:+ bad) ∈
    new_events w (process_backtest_results (before ++ bad :: after) w).2 ∧
  length (loaded (before ++ after) w) = length (before ++ after) ∧
  dom (dict_stats (process_backtest_results (before ++ bad :: after) w).1) =
    list_to_set (bt_id <$> loaded (before ++ after) w) ∧
  (∀ sid, sid ∉ bt_id <$> loaded (before ++ after) w →
     dict_allocation (process_backtest_results (before ++ bad :: after) w).1
       !! sid = None ∧
     dict_return (process_backtest_results (before ++ bad :: after) w).1
       !! sid = None ∧
     dict_stats (process_backtest_results (before ++ bad :: after) w).1
       !! sid = None ∧
     dict_name (process_backtest_results (before ++ bad :: after) w).1
       !! sid = None) ∧
  (∀ i f b,
     (before ++ after) !! i = Some f →
     load_backtest f w = Some b →
     (∀ i' f' b', i < i' → (before ++ after) !! i' = Some f' →
                  load_backtest f' w = Some b' → bt_id b' ≠ bt_id b) →
     dict_allocation (process_backtest_results (before ++ bad :: after) w).1
       !! bt_id b = Some (bt_allocations b) ∧
     dict_return (process_backtest_results (before ++ bad :: after) w).1
       !! bt_id b = Some (bt_return b) ∧
     dict_stats (process_backtest_results (before ++ bad :: after) w).1
       !! bt_id b = Some (bt_stats b) ∧
     dict_name (process_backtest_results (before ++ bad :: after) w).1
       !! bt_id b = Some (bt_symphony_name b)).
Proof.
  intros Hbad Hgood.
  assert (Hskip : loaded (before ++ bad :: after) w = loaded (before ++ after) w).
  { rewrite !loaded_app. f_equal. unfold loaded. csimpl. by rewrite Hbad. }
  assert (Hsame : (process_backtest_results (before ++ bad :: after) w).1 =
                  (process_backtest_results (before ++ after) w).1).
  { by rewrite !process_backtest_results_collect, Hskip. }
  split_and!.
  - done.
  - unfold process_backtest_results.
    destruct (backtest_results_loop 0 (before ++ bad :: after) (Dicts ∅ ∅ ∅ ∅) w)
      as [d' w'] eqn:Hrun.
    apply backtest_results_loop_spec in Hrun as (_ & _ & delta & Htr & _ & Hfail).
    apply new_events_app in Htr. simpl. rewrite Htr. apply Hfail; [|done].
    apply elem_of_app. right. by left.
  - clear Hskip Hsame. induction Hgood as [|f l [b Hb] _ IH]; [done|].
    unfold loaded in *. csimpl. rewrite Hb. simpl. by rewrite IH.
  - rewrite Hsame.
    by destruct (process_backtest_results_dom (before ++ after) w)
      as (_ & _ & -> & _).
  - intros sid Hsid. rewrite Hsame, process_backtest_results_collect.
    destruct (collect_dicts (loaded (before ++ after) w) (Dicts ∅ ∅ ∅ ∅))
      as (-> & -> & -> & ->).
    rewrite !put_all_frame by done. simpl. by rewrite !lookup_empty.
  - intros i f b Hi Hload Hlater. rewrite Hsame.
    by apply (process_backtest_results_entry _ w i f b).
Qed.

(** C10.  [process_backtest_results] keys its dictionaries by the
    identifier found inside each payload, not by the file: the key set
    is the set of embedded identifiers, and when two distinct files
    embed the same identifier the later file's values are what all four
    dictionaries hold for it. *)
Theorem process_backtest_results_keyed_by_payload
    (jsonfiles : list string) (w : world) i1 i2 f1 f2 b1 b2 :
  i1 < i2 →
  jsonfiles !! i1 = Some f1 →
  jsonfiles !! i2 = Some f2 →
  f1 ≠ f2 →
  load_backtest f1 w = Some b1 →
  load_backtest f2 w = Some b2 →
  bt_id b1 = bt_id b2 →
  (∀ i' f' b', i2 < i' → jsonfiles !! i' = Some f' →
               load_backtest f' w = Some b' → bt_id b' ≠ bt_id b2) →
  dom (dict_name (process_backtest_results jsonfiles w).1) =
    list_to_set (bt_id <$> loaded jsonfiles w) ∧
  dict_allocation (process_backtest_results jsonfiles w).1 !! bt_id b1 =
    Some (bt_allocations b2) ∧
  dict_return (process_backtest_results jsonfiles w).1 !! bt_id b1 =
    Some (bt_return b2) ∧
  dict_stats (process_backtest_results jsonfiles w).1 !! bt_id b1 =
    Some (bt_stats b2) ∧
  dict_name (process_backtest_results jsonfiles w).1 !! bt_id b1 =
    Some (bt_symphony_name b2).
Proof.
  intros _ _ Hi2 _ _ Hload2 Hid Hlater. split.
  - by destruct (process_backtest_results_dom jsonfiles w) as (_ & _ & _ & ->).
  - rewrite Hid. by apply (process_backtest_results_entry _ w i2 f2 b2).
Qed.

(** *** Dictionaries *)

(** After [d.update(other)] a key holds [other]'s value when [other] has
    it, and [d]'s otherwise. *)
Lemma dict_update_lookup {V} (d other : gmap string V) k :
  dict_update d other !! k =
  match other !! k with Some v => Some v | None => d !! k end.
Proof.
  unfold dict_update. revert k.
  apply (map_fold_weak_ind
    (λ r m, ∀ k, r !! k = match m !! k with Some v => Some v | None => d !! k end)).
  - intros k. by rewrite lookup_empty.
  - intros i x m r Hi IH k. destruct (decide (i = k)) as [->|Hne].
    + by rewrite !lookup_insert_eq.
    + by rewrite !lookup_insert_ne.
Qed.



(** *** The source extractor *)

Lemma discord_loop_spec jsonfiles : ∀ symphonies_dict w,
  fs (discord_loop jsonfiles symphonies_dict w).1 = fs w ∧
  ∃ delta,
    trace (discord_loop jsonfiles symphonies_dict w).1 = trace w ++ delta ∧
    Forall (λ e, ∃ msg, e = EvPrint msg) delta.
Proof.
  induction jsonfiles as [|f rest IH]; intros d w; simpl.
  - split; [done|]. exists []. by rewrite app_nil_r.
  - destruct (fs w !! f ≫= get_symphonies) as [found|]; simpl.
    + destruct (IH (dict_update d found) (print ("Processing file: " +:+ f) w))
        as (Hfs & delta & Htr & Hdelta).
      split; [done|]. exists (EvPrint ("Processing file: " +:+ f) :: delta).
      rewrite Htr. simpl. rewrite <- app_assoc. split; [done|].
      apply Forall_cons. split; [by eexists | done].
    + split; [done|]. eexists [_]. split; [done|].
      apply Forall_singleton. by eexists.
Qed.

(** What the extractor returns is decided by the files alone. *)
Lemma discord_loop_fs jsonfiles : ∀ symphonies_dict w1 w2,
  fs w1 = fs w2 →
  (discord_loop jsonfiles symphonies_dict w1).2 =
  (discord_loop jsonfiles symphonies_dict w2).2.
Proof.
  induction jsonfiles as [|f rest IH]; intros d w1 w2 Hfs; simpl; [done|].
  rewrite Hfs. destruct (fs w2 !! f ≫= get_symphonies) as [found|]; [|done].
  by apply IH.
Qed.

Lemma process_discord_exports_spec dirpath w :
  fs (process_discord_exports dirpath w).1 = fs w ∧
  ∃ delta,
    trace (process_discord_exports dirpath w).1 = trace w ++ delta ∧
    Forall (λ e, ∃ msg, e = EvPrint msg) delta.
Proof.
  unfold process_discord_exports. destruct (listdir (fs w) dirpath) as [names|].
  - apply discord_loop_spec.
  - split; [done|]. exists []. by rewrite app_nil_r.
Qed.

Lemma process_discord_exports_fs dirpath w1 w2 :
  fs w1 = fs w2 →
  (process_discord_exports dirpath w1).2 = (process_discord_exports dirpath w2).2.
Proof.
  intros Hfs. unfold process_discord_exports, isfile. rewrite Hfs.
  destruct (listdir (fs w2) dirpath) as [names|]; [|done].
  by apply discord_loop_fs.
Qed.

(** C6.  Running [process_discord_exports] again over the same directory
    gives the same mapping (or fails the same way): a run reads and
    prints only, so the second run finds the files the first one found. *)
Theorem process_discord_exports_idempotent (dirpath : string) (w : world) :
  fs (process_discord_exports dirpath w).1 = fs w ∧
  (process_discord_exports dirpath (process_discord_exports dirpath w).1).2 =
    (process_discord_exports dirpath w).2 ∧
  ∀ w2, fs w2 = fs w →
        (process_discord_exports dirpath w2).2 =
        (process_discord_exports dirpath w).2.
Proof.
  destruct (process_discord_exports_spec dirpath w) as (Hfs & _).
  split_and!; [done| |].
  - by apply process_discord_exports_fs.
  - intros w2 Hfs2. by apply process_discord_exports_fs.
Qed.

(** *** The workflow *)

Lemma writes_app a b : writes (a ++ b) = writes a ++ writes b.
Proof. apply omap_app. Qed.

Lemma symphony_calls_app a b :
  symphony_calls (a ++ b) = symphony_calls a ++ symphony_calls b.
Proof. apply omap_app. Qed.

Lemma backtest_calls_app a b :
  backtest_calls (a ++ b) = backtest_calls a ++ backtest_calls b.
Proof. apply omap_app. Qed.

Lemma writes_to_cons_ne p q c ws :
  p ≠ q →
  snd <$> filter (λ pc : string * content, pc.1 = p) ((q, c) :: ws) =
  snd <$> filter (λ pc : string * content, pc.1 = p) ws.
Proof. intros Hne. rewrite filter_cons. simpl. by rewrite decide_False. Qed.

Lemma writes_to_cons_eq p c ws :
  snd <$> filter (λ pc : string * content, pc.1 = p) ((p, c) :: ws) =
  c :: (snd <$> filter (λ pc : string * content, pc.1 = p) ws).
Proof. rewrite filter_cons. simpl. by rewrite decide_True. Qed.

Lemma writes_to_elsewhere p (ws tail : list (string * content)) :
  (∀ q, q ∈ ws.*1 → p ≠ q) →
  snd <$> filter (λ pc : string * content, pc.1 = p) (ws ++ tail) =
  snd <$> filter (λ pc : string * content, pc.1 = p) tail.
Proof.
  induction ws as [|[q c] ws IH]; intros Hp; [done|].
  simpl. rewrite writes_to_cons_ne.
  - apply IH. intros q' Hq'. apply Hp. by right.
  - apply Hp. by left.
Qed.

Lemma persisted_fst e (df : dataframe) : ∀ rs : list reply,
  length rs = length df →
  (zip_with (persisted e) df rs).*1 =
  backtest_filename e <$> symphony_sid_values df.
Proof.
  induction df as [|x df IH]; intros [|r rs] Hlen; try done.
  simpl in *. f_equal. apply IH. congruence.
Qed.

(** What each step of the workflow adds to the trace. *)
Lemma batch_fetch_symphonies_trace (symphony_sid_list : list string) (w : world) :
  ∃ delta,
    trace (batch_fetch_symphonies symphony_sid_list w).2 = trace w ++ delta ∧
    writes delta = [] ∧
    symphony_calls delta = symphony_sid_list ∧
    backtest_calls delta = [].
Proof.
  unfold batch_fetch_symphonies.
  destruct (symphonies_loop 0 symphony_sid_list [] [] w)
    as [[response_list failure_list] w'] eqn:Hrun.
  apply symphonies_loop_spec in Hrun
    as (_ & delta & _ & _ & _ & _ & Htr & Hs & Hb & Hw & _).
  by exists delta.
Qed.

Lemma batch_fetch_backtests_trace (df : dataframe)
    (start_date end_date : string) (w : world) :
  ∃ delta,
    trace (batch_fetch_backtests df start_date end_date w).2 = trace w ++ delta ∧
    (writes delta).*1 = backtest_filename end_date <$> symphony_sid_values df ∧
    symphony_calls delta = [] ∧
    backtest_calls delta =
      (λ sid, (sid, start_date, end_date)) <$> symphony_sid_values df.
Proof.
  unfold batch_fetch_backtests.
  destruct (backtests_loop df start_date end_date [] [] w)
    as [[rlist flist] w'] eqn:Hrun.
  apply (backtests_loop_spec df 0) in Hrun
    as (rs & delta & Hlen & _ & _ & Htr & _ & Hw & Hb & Hs & _).
  exists delta. split_and!; [done| |done|].
  - rewrite Hw. by apply persisted_fst.
  - rewrite Hb. unfold symphony_sid_values. by rewrite <- list_fmap_compose.
Qed.

Lemma process_backtest_results_trace (jsonfiles : list string) (w : world) :
  ∃ delta,
    trace (process_backtest_results jsonfiles w).2 = trace w ++ delta ∧
    Forall (λ e, ∃ msg, e = EvPrint msg) delta.
Proof.
  unfold process_backtest_results.
  destruct (backtest_results_loop 0 jsonfiles (Dicts ∅ ∅ ∅ ∅) w)
    as [d' w'] eqn:Hrun.
  apply backtest_results_loop_spec in Hrun as (_ & _ & delta & Htr & Hdelta & _).
  by exists delta.
Qed.

(** Once the exports are read, the workflow is its steps, and it ends
    on whether the OOS mapping can be built. *)
Lemma workflow_steps (w w1 : world) (symphonies_dict : gmap string json) :
  process_discord_exports "~/source/discord/archive/20241229" w =
    (w1, Some symphonies_dict) →
  main_data_collection_workflow w =
    match sid_to_oos_of (step_df_response symphonies_dict w1) with
    | None => ((step_results symphonies_dict w1).2, None)
    | Some sid_to_oos =>
        (to_csv (step_oos_stats symphonies_dict w1 sid_to_oos)
           (get_csv_name "OOS")
           (to_csv (step_backtest_stats symphonies_dict w1)
              (get_csv_name "BACKTEST") (step_results symphonies_dict w1).2),
         Some (step_backtest_stats symphonies_dict w1,
               step_oos_stats symphonies_dict w1 sid_to_oos))
    end.
Proof.
  intros Hexports.
  unfold main_data_collection_workflow, step_oos_stats, step_backtest_stats,
    step_results, step_backtests, step_oos_saved, step_df_response,
    step_symphonies, step_df.
  rewrite Hexports.
  destruct get_start_end_date as [start_date end_date]. cbn [fst snd].
  destruct (batch_fetch_symphonies _ _) as [[response_list failure_list] w3].
  cbn [fst snd].
  destruct (batch_fetch_backtests _ _ _ _) as [[rlist flist] w5].
  cbn [fst snd].
  destruct (process_backtest_results _ _) as [d w6].
  reflexivity.
Qed.

(** The trace up to the end of [process_backtest_results]: the
    symphonies are fetched (events [a]), then the backtests (events
    [b]). *)
Lemma workflow_steps_trace (w w1 : world) (symphonies_dict : gmap string json) :
  process_discord_exports "~/source/discord/archive/20241229" w =
    (w1, Some symphonies_dict) →
  ∃ a b,
    trace (step_results symphonies_dict w1).2 = trace w ++ a ++ b ∧
    symphony_calls a = symphony_sid_values (step_df symphonies_dict) ∧
    backtest_calls a = [] ∧
    writes a =
      [(get_csv_name "SYMPHONIES", Csv (step_df symphonies_dict));
       (get_csv_name "OOS", Csv (step_df_response symphonies_dict w1))] ∧
    symphony_calls b = [] ∧
    backtest_calls b =
      (λ sid, (sid, get_start_end_date.1, get_start_end_date.2))
        <$> symphony_sid_values (step_df symphonies_dict) ∧
    writes b = step_documents symphonies_dict w1 ∧
    (step_documents symphonies_dict w1).*1 =
      backtest_filename get_start_end_date.2
        <$> symphony_sid_values (step_df symphonies_dict).
Proof.
  intros Hexports.
  destruct (process_discord_exports_spec "~/source/discord/archive/20241229" w)
    as (_ & d1 & Htr1 & Hd1).
  rewrite Hexports in Htr1. simpl in Htr1.
  apply prints_quiet in Hd1 as (Hw1 & Hs1 & Hb1).
  destruct (batch_fetch_symphonies_trace
              (symphony_sid_values (step_df symphonies_dict))
              (to_csv (step_df symphonies_dict) (get_csv_name "SYMPHONIES") w1))
    as (d3 & Htr3 & Hw3 & Hs3 & Hb3).
  fold (step_symphonies symphonies_dict w1) in Htr3.
  destruct (batch_fetch_backtests_trace (step_df symphonies_dict)
              get_start_end_date.1 get_start_end_date.2
              (step_oos_saved symphonies_dict w1))
    as (d5 & Htr5 & Hw5 & Hs5 & Hb5).
  fold (step_backtests symphonies_dict w1) in Htr5.
  destruct (process_backtest_results_trace
              (backtest_filename get_start_end_date.2
                 <$> symphony_sid_values (step_df symphonies_dict))
              (step_backtests symphonies_dict w1).2)
    as (d6 & Htr6 & Hd6).
  fold (step_results symphonies_dict w1) in Htr6.
  apply prints_quiet in Hd6 as (Hw6 & Hs6 & Hb6).
  assert (Hdocs : step_documents symphonies_dict w1 = writes d5).
  { unfold step_documents.
    by rewrite (new_events_app _ _ d5 Htr5). }
  exists
    (d1 ++ [EvWrite (get_csv_name "SYMPHONIES") (Csv (step_df symphonies_dict))]
        ++ d3 ++
        [EvWrite (get_csv_name "OOS") (Csv (step_df_response symphonies_dict w1))]),
    (d5 ++ d6).
  split_and!.
  - rewrite Htr6, Htr5. unfold step_oos_saved. simpl. rewrite Htr3. simpl.
    rewrite Htr1, <- !app_assoc. simpl. by rewrite <- !app_assoc.
  - rewrite !symphony_calls_app, Hs1, Hs3. simpl. by rewrite app_nil_r.
  - by rewrite !backtest_calls_app, Hb1, Hb3.
  - by rewrite !writes_app, Hw1, Hw3.
  - by rewrite symphony_calls_app, Hs5, Hs6.
  - by rewrite backtest_calls_app, Hb5, Hb6, app_nil_r.
  - by rewrite writes_app, Hw6, app_nil_r, Hdocs.
  - by rewrite Hdocs.
Qed.

(** C9.  A run of [main_data_collection_workflow] that completes writes
    the path [get_csv_name('OOS')] twice: first, right after the
    symphonies are fetched, the frame [response_to_dataframe] makes of
    the responses [batch_fetch_symphonies] returned, and last of all the
    frame of the OOS statistics that the run returns; the file holds the
    OOS statistics afterwards, the responses frame is overwritten. *)
Theorem workflow_overwrites_oos (w w' : world)
    (df_backtest_stats df_oos_stats : dataframe) :
  main_data_collection_workflow w =
    (w', Some (df_backtest_stats, df_oos_stats)) →
  ∃ (w1 : world) (symphonies_dict sid_to_oos : gmap string json),
    process_discord_exports "~/source/discord/archive/20241229" w =
      (w1, Some symphonies_dict) ∧
    sid_to_oos_of (step_df_response symphonies_dict w1) = Some sid_to_oos ∧
    df_backtest_stats = step_backtest_stats symphonies_dict w1 ∧
    df_oos_stats = step_oos_stats symphonies_dict w1 sid_to_oos ∧
    symphony_calls (new_events w w') =
      symphony_sid_values (step_df symphonies_dict) ∧
    backtest_calls (new_events w w') =
      (λ sid, (sid, get_start_end_date.1, get_start_end_date.2))
        <$> symphony_sid_values (step_df symphonies_dict) ∧
    writes (new_events w w') =
      (get_csv_name "SYMPHONIES", Csv (step_df symphonies_dict)) ::
      (get_csv_name "OOS", Csv (step_df_response symphonies_dict w1)) ::
      step_documents symphonies_dict w1 ++
      [(get_csv_name "BACKTEST", Csv df_backtest_stats);
       (get_csv_name "OOS", Csv df_oos_stats)] ∧
    (step_documents symphonies_dict w1).*1 =
      backtest_filename get_start_end_date.2
        <$> symphony_sid_values (step_df symphonies_dict) ∧
    fs w' !! get_csv_name "OOS" = Some (Csv df_oos_stats) ∧
    (get_csv_name "OOS" ≠ get_csv_name "SYMPHONIES" →
     get_csv_name "OOS" ≠ get_csv_name "BACKTEST" →
     (∀ sid, get_csv_name "OOS" ≠ backtest_filename get_start_end_date.2 sid) →
     writes_to (get_csv_name "OOS") (new_events w w') =
       [Csv (step_df_response symphonies_dict w1); Csv df_oos_stats]).
Proof.
  intros Hrun.
  destruct (process_discord_exports "~/source/discord/archive/20241229" w)
    as [w1 [symphonies_dict|]] eqn:Hexports.
  2:{ unfold main_data_collection_workflow in Hrun. rewrite Hexports in Hrun.
      by destruct get_start_end_date. }
  rewrite (workflow_steps w w1 symphonies_dict Hexports) in Hrun.
  destruct (sid_to_oos_of (step_df_response symphonies_dict w1))
    as [sid_to_oos|] eqn:Hoos; [|done].
  injection Hrun as <- <- <-.
  destruct (workflow_steps_trace w w1 symphonies_dict Hexports)
    as (a & b & Htr & Hsa & Hba & Hwa & Hsb & Hbb & Hwb & Hpaths).
  assert (Hnew : new_events w
    (to_csv (step_oos_stats symphonies_dict w1 sid_to_oos) (get_csv_name "OOS")
       (to_csv (step_backtest_stats symphonies_dict w1)
          (get_csv_name "BACKTEST") (step_results symphonies_dict w1).2)) =
    a ++ b ++
    [EvWrite (get_csv_name "BACKTEST")
       (Csv (step_backtest_stats symphonies_dict w1));
     EvWrite (get_csv_name "OOS")
       (Csv (step_oos_stats symphonies_dict w1 sid_to_oos))]).
  { apply new_events_app. simpl. rewrite Htr, <- !app_assoc. reflexivity. }
  assert (Hwrites : writes (a ++ b ++
    [EvWrite (get_csv_name "BACKTEST")
       (Csv (step_backtest_stats symphonies_dict w1));
     EvWrite (get_csv_name "OOS")
       (Csv (step_oos_stats symphonies_dict w1 sid_to_oos))]) =
    (get_csv_name "SYMPHONIES", Csv (step_df symphonies_dict)) ::
    (get_csv_name "OOS", Csv (step_df_response symphonies_dict w1)) ::
    step_documents symphonies_dict w1 ++
    [(get_csv_name "BACKTEST", Csv (step_backtest_stats symphonies_dict w1));
     (get_csv_name "OOS", Csv (step_oos_stats symphonies_dict w1 sid_to_oos))]).
  { by rewrite !writes_app, Hwa, Hwb. }
  exists w1, symphonies_dict, sid_to_oos. rewrite Hnew.
  split_and!; try done.
  - rewrite !symphony_calls_app, Hsa, Hsb. simpl. by rewrite app_nil_r.
  - rewrite !backtest_calls_app, Hba, Hbb. simpl. by rewrite app_nil_r.
  - apply lookup_insert_eq.
  - intros Hsym Hbt Hjson. unfold writes_to. rewrite Hwrites.
    rewrite writes_to_cons_ne, writes_to_cons_eq by done.
    rewrite writes_to_elsewhere.
    + by rewrite writes_to_cons_ne, writes_to_cons_eq by done.
    + intros q Hq. rewrite Hpaths in Hq.
      apply list_elem_of_fmap in Hq as (sid & -> & _). apply Hjson.
Qed.

End Properties.

(** ** Concrete runs *)

(** The end-to-end scenario: of 25 identifiers the 6th and the 18th
    fail; 23 responses come back, the two failures are recorded with
    their positions, and the fetcher pauses before the calls 0 and 20. *)
Example scenario_25_identifiers :
  let run := batch_fetch_symphonies (api := scenario_api) scenario_sids
               (World ∅ []) in
  length run.1.1 = 23 ∧
  run.1.2 = [(5%Z, "id5", 429%Z); (17%Z, "id17", 429%Z)] ∧
  pause_positions 0 (trace run.2) = [0; 20] ∧
  length (symphony_calls (trace run.2)) = 25.
Proof. vm_compute. done. Qed.

(** C2.  The backtest fetcher paces by the index label of the row, not
    by its position: on a frame whose labels are 3, 20 and 40 it pauses
    before the second and the third call and not before the first,
    where the positions 0, 20, 40, ... of three calls are just 0. *)
Theorem batch_fetch_backtests_paces_by_label `{ComposerApi}
    (start_date end_date : string) (w : world) :
  pause_positions 0
    (new_events w (batch_fetch_backtests retry_frame start_date end_date w).2) =
    [1; 2] ∧
  every_20th (length retry_frame) = [0].
Proof. by rewrite batch_fetch_backtests_pacing. Qed.

(** The demo disk, read without the copy: [s2.json] is the malformed
    file between two good ones. *)
Lemma process_backtest_results_skips_malformed_witness :
  load_backtest (dp := demo_dp) demo_s2 demo_disk = None ∧
  Forall (λ f, is_Some (load_backtest (dp := demo_dp) f demo_disk))
    ([demo_s1] ++ [demo_s3]) ∧
  (process_backtest_results (dp := demo_dp)
     ([demo_s1] ++ demo_s2 :: [demo_s3]) demo_disk).1 =
  (process_backtest_results (dp := demo_dp)
     ([demo_s1] ++ [demo_s3]) demo_disk).1.
Proof.
  assert (Hbad : load_backtest (dp := demo_dp) demo_s2 demo_disk = None)
    by (vm_compute; reflexivity).
  assert (Hgood : Forall (λ f, is_Some (load_backtest (dp := demo_dp) f demo_disk))
                    ([demo_s1] ++ [demo_s3])).
  { repeat (apply Forall_cons; split; [eexists; vm_compute; reflexivity|]).
    apply Forall_nil_2. }
  split; [exact Hbad|]. split; [exact Hgood|].
  exact (proj1 (process_backtest_results_skips_malformed (dp := demo_dp)
                  [demo_s1] demo_s2 [demo_s3] demo_disk Hbad Hgood)).
Defined.

(** On the demo disk [copy.json] embeds the identifier of [s1.json]
    and is read last: its name is what the dictionaries hold for [s1]. *)
Lemma process_backtest_results_keyed_by_payload_witness :
  demo_s1 ≠ demo_copy ∧
  dict_name (process_backtest_results (dp := demo_dp)
               [demo_s1; demo_s3; demo_copy] demo_disk).1 !! "s1" =
    Some "Alpha v2".
Proof.
  assert (Hne : demo_s1 ≠ demo_copy) by (vm_compute; discriminate).
  split; [exact Hne|].
  refine (proj2 (proj2 (proj2 (proj2
    (process_backtest_results_keyed_by_payload (dp := demo_dp)
       [demo_s1; demo_s3; demo_copy] demo_disk 0 2 demo_s1 demo_copy
       (Backtest [] [] {["sharpe_ratio" := JNum 12 (-1)]} "Alpha" "s1")
       (Backtest [] [] {["sharpe_ratio" := JNum 30 (-1)]} "Alpha v2" "s1")
       _ _ _ Hne _ _ _ _))))).
  - lia.
  - reflexivity.
  - reflexivity.
  - vm_compute. reflexivity.
  - vm_compute. reflexivity.
  - reflexivity.
  - intros [|[|[|i']]] f' b' Hlt Hlook; try lia. discriminate Hlook.
Defined.

(** The demo run completes, and its OOS file holds the OOS statistics. *)
Lemma workflow_overwrites_oos_witness :
  main_data_collection_workflow (api := demo_api) (dp := demo_dp)
    (fu := demo_fu) (qa := demo_qa) (os := demo_os) demo_world =
    (demo_run.1, Some demo_frames) ∧
  fs demo_run.1 !! get_csv_name (FileUtils := demo_fu) "OOS" =
    Some (Csv demo_frames.2).
Proof.
  assert (Hrun : main_data_collection_workflow (api := demo_api) (dp := demo_dp)
                   (fu := demo_fu) (qa := demo_qa) (os := demo_os) demo_world =
                 (demo_run.1, Some demo_frames))
    by (vm_compute; reflexivity).
  split; [exact Hrun|].
  destruct (workflow_overwrites_oos (api := demo_api) (dp := demo_dp)
              (fu := demo_fu) (qa := demo_qa) (os := demo_os)
              demo_world demo_run.1 demo_frames.1 demo_frames.2 Hrun)
    as (w1 & symphonies_dict & sid_to_oos &
        _ & _ & _ & _ & _ & _ & _ & _ & Hfile & _).
  exact Hfile.
Defined.

(** A failed backtest fetch still leaves its file: the service refuses
    [y3], the failure is recorded, and the error document is on disk. *)
Example failed_backtest_leaves_file :
  let run := batch_fetch_backtests (api := demo_api)
               [(0%Z, Row "s1" ∅); (1%Z, Row "y3" ∅)]
               "2020-01-01" "2024-12-29" (World ∅ []) in
  length run.1.1 = 1 ∧
  run.1.2 = [(1%Z, "y3", 500%Z)] ∧
  fs run.2 !! "bin/BT-2024-12-29/y3.json" =
    Some (Json (JObj [("error", JStr "backtest failed")])).
Proof. vm_compute. done. Qed.

(** The processor on the demo disk: the unreadable file is skipped and
    logged, and the copy overwrites what the first file stored. *)
Example demo_disk_processed :
  let run := process_backtest_results (dp := demo_dp)
               [demo_s1; demo_s2; demo_s3; demo_copy] demo_disk in
  map_to_list (dict_name run.1) = [("s3", "Gamma"); ("s1", "Alpha v2")] ∧
  trace run.2 = [EvPrint "Index: 0";
                 EvPrint "Fail jsonfile bin/BT-2024-12-29/s2.json"].
Proof. vm_compute. done. Qed.

(** The demo workflow writes these paths, in this order. *)
Example demo_run_writes :
  (writes (trace demo_run.1)).*1 =
    ["bin/SYMPHONIES-2024-12-29/SYMPHONIES.csv";
     "bin/SYMPHONIES-2024-12-29/OOS.csv";
     "bin/BT-2024-12-29/s1.json"; "bin/BT-2024-12-29/s2.json";
     "bin/BT-2024-12-29/y3.json";
     "bin/SYMPHONIES-2024-12-29/BACKTEST.csv";
     "bin/SYMPHONIES-2024-12-29/OOS.csv"].
Proof. vm_compute. done. Qed.

(** ** Further properties *)

Section Further.
Context {api : ComposerApi} {dp : DataProcessing} {fu : FileUtils}
        {qa : QuantAnalysis} {os : Os}.

(** *** The source extractor, continued *)

Lemma prints_app a b : prints (a ++ b) = prints a ++ prints b.
Proof. apply omap_app. Qed.

Lemma last_values_cons {V} (m : gmap string V) ms k :
  last (omap (λ m' : gmap string V, m' !! k) (m :: ms)) =
  match last (omap (λ m' : gmap string V, m' !! k) ms) with
  | Some v => Some v
  | None => m !! k
  end.
Proof.
  csimpl. destruct (m !! k) as [v|]; [|by destruct (last _)].
  by rewrite last_cons.
Qed.

(** The loop folds the extractions in order; a key ends with the value
    of the last extraction that has it. *)
Lemma discord_loop_result jsonfiles : ∀ d w d',
  (discord_loop jsonfiles d w).2 = Some d' →
  ∃ ms : list (gmap string json),
    Forall2 (λ f m, extraction f w = Some m) jsonfiles ms ∧
    prints (trace (discord_loop jsonfiles d w).1) =
      prints (trace w) ++ ((λ f, "Processing file: " +:+ f) <$> jsonfiles) ∧
    ∀ k, d' !! k =
         match last (omap (λ m : gmap string json, m !! k) ms) with
         | Some v => Some v
         | None => d !! k
         end.
Proof.
  induction jsonfiles as [|f rest IH]; intros d w d' Hrun; simpl in Hrun.
  - injection Hrun as <-. exists []. simpl. by rewrite app_nil_r.
  - simpl. unfold extraction in *.
    destruct (fs w !! f ≫= get_symphonies) as [found|] eqn:Hf; [|done].
    apply IH in Hrun as (ms & Hall & Hprints & Hlook).
    exists (found :: ms). split_and!.
    + by apply Forall2_cons.
    + rewrite Hprints. simpl. rewrite prints_app. simpl.
      by rewrite <- app_assoc.
    + intros k. rewrite last_values_cons, Hlook, dict_update_lookup.
      by destruct (last _), (found !! k).
Qed.

Lemma discord_loop_failure jsonfiles : ∀ d w,
  (discord_loop jsonfiles d w).2 = None ↔
  ∃ f, f ∈ jsonfiles ∧ extraction f w = None.
Proof.
  induction jsonfiles as [|f rest IH]; intros d w; simpl.
  - split; [done|]. intros (f & Hf & _). by apply elem_of_nil in Hf.
  - unfold extraction in *.
    destruct (fs w !! f ≫= get_symphonies) as [found|] eqn:Hf; simpl.
    + rewrite IH. simpl. split.
      * intros (g & Hg & Hnone). exists g. split; [by right | done].
      * intros (g & Hg & Hnone). exists g.
        apply elem_of_cons in Hg as [->|Hg]; [congruence | done].
    + split; [|done]. intros _. exists f. split; [by left | done].
Qed.

(** X1.  [process_discord_exports] merges the export files in listing
    order, last write wins: it reads the regular files of the listing,
    one [Processing file] line each, and a key of the result holds the
    value of the last file whose extraction has that key (and is absent
    when no file has it). *)
Theorem process_discord_exports_last_wins (dirpath : string) (w w' : world)
    (symphonies_dict : gmap string json) :
  process_discord_exports dirpath w = (w', Some symphonies_dict) →
  ∃ (names : list string) (ms : list (gmap string json)),
    listdir (fs w) dirpath = Some names ∧
    Forall2 (λ f m, extraction f w = Some m) (export_files dirpath names w) ms ∧
    prints (new_events w w') =
      (λ f, "Processing file: " +:+ f) <$> export_files dirpath names w ∧
    ∀ k, symphonies_dict !! k =
         last (omap (λ m : gmap string json, m !! k) ms).
Proof.
  unfold process_discord_exports. intros Hrun.
  destruct (listdir (fs w) dirpath) as [names|] eqn:Hlist; [|done].
  fold (export_files dirpath names w) in Hrun.
  destruct (discord_loop_spec (export_files dirpath names w) ∅ w)
    as (_ & delta & Htr & _).
  destruct (discord_loop_result (export_files dirpath names w) ∅ w symphonies_dict)
    as (ms & Hall & Hprints & Hlook).
  { by rewrite Hrun. }
  rewrite Hrun in Htr, Hprints. simpl in Htr, Hprints.
  exists names, ms. split_and!; [done|done| |].
  - rewrite (new_events_app w w' delta Htr).
    rewrite Htr, prints_app in Hprints. by apply app_inv_head in Hprints.
  - intros k. rewrite Hlook, lookup_empty. by destruct (last _).
Qed.

(** X2.  [process_discord_exports] has no error handling: it raises
    exactly when the directory cannot be listed or one of its regular
    files cannot be extracted; one bad export fails the whole run. *)
Theorem process_discord_exports_raises (dirpath : string) (w : world) :
  (process_discord_exports dirpath w).2 = None ↔
  listdir (fs w) dirpath = None ∨
  ∃ names f,
    listdir (fs w) dirpath = Some names ∧
    f ∈ export_files dirpath names w ∧
    extraction f w = None.
Proof.
  unfold process_discord_exports.
  destruct (listdir (fs w) dirpath) as [names|] eqn:Hlist.
  - fold (export_files dirpath names w). rewrite discord_loop_failure. split.
    + intros (f & Hf & Hnone). right. by exists names, f.
    + intros [|(names' & f & Heq & Hf & Hnone)]; [done|].
      injection Heq as <-. by exists f.
  - split; [by left | done].
Qed.

(** *** The symphony fetcher, continued *)

Lemma sleeps_app a b : sleeps (a ++ b) = sleeps a ++ sleeps b.
Proof. apply omap_app. Qed.

Lemma pause_positions_sleeps tr : ∀ k,
  length (pause_positions k tr) = length (sleeps tr).
Proof.
  induction tr as [|e tr IH]; intros k; [done|].
  destruct e; simpl; by rewrite ?IH.
Qed.

Lemma pace_sleeps idx n w :
  sleeps (trace (pace idx n w)) =
  sleeps (trace w) ++ (if decide (idx mod 20 = 0)%Z then [1%Z] else []).
Proof.
  rewrite pace_trace, sleeps_app. f_equal. unfold pace_events.
  destruct (Z.eqb_spec (idx mod 20) 0) as [Heq|Hne].
  - by rewrite decide_True.
  - by rewrite decide_False.
Qed.

Lemma symphonies_loop_sleeps l : ∀ idx resp fail w,
  ∃ n, sleeps (trace (symphonies_loop idx l resp fail w).2) =
       sleeps (trace w) ++ replicate n 1%Z.
Proof.
  induction l as [|sid rest IH]; intros idx resp fail w; simpl.
  - exists 0. by rewrite app_nil_r.
  - set (w1 := pace (Z.of_nat idx) (length fail) w).
    destruct (symphony_reply (trace w1) sid) as [[ok code] data].
    assert (Hstep : sleeps (trace (emit (EvFetchSymphony sid) w1)) =
              sleeps (trace w) ++
              (if decide (Z.of_nat idx mod 20 = 0)%Z then [1%Z] else [])).
    { simpl. rewrite sleeps_app. simpl. rewrite app_nil_r. apply pace_sleeps. }
    destruct ok;
      [destruct (IH (S idx) (resp ++ [data]) fail
                   (emit (EvFetchSymphony sid) w1)) as [n Hn]
      |destruct (IH (S idx) resp (fail ++ [(Z.of_nat idx, sid, code)])
                   (emit (EvFetchSymphony sid) w1)) as [n Hn]];
      rewrite Hn, Hstep, <- app_assoc;
      (destruct (decide (Z.of_nat idx mod 20 = 0)%Z);
       [by exists (S n) | by exists n]).
Qed.

Lemma every_20th_length n : length (every_20th n) = (n + 19) / 20.
Proof.
  unfold every_20th. induction n as [|n IH]; [done|].
  assert (Hlast : length (filter (λ p, (Z.of_nat p mod 20 = 0)%Z) [n]) =
                  if decide (Z.of_nat n mod 20 = 0)%Z then 1 else 0).
  { rewrite filter_cons, filter_nil. by destruct (decide _). }
  rewrite seq_S. change (0 + n) with n.
  rewrite filter_app, length_app, IH, Hlast. clear IH Hlast.
  destruct (decide (Z.of_nat n mod 20 = 0)%Z) as [Hz|Hz];
    apply Nat2Z.inj; rewrite Nat2Z.inj_add, !Nat2Z.inj_div;
    zify; Z.to_euclidean_division_equations; lia.
Qed.

Lemma failures_enumerate (l : list string) : ∀ k (rs : list reply),
  Forall (λ x : failure,
            ∃ i, x.1.1 = Z.of_nat (k + i) ∧ l !! i = Some x.1.2)
    (failures (zip (enumerate_from k l) rs)) ∧
  StronglySorted Z.lt (failure_labels (failures (zip (enumerate_from k l) rs))).
Proof.
  induction l as [|sid rest IH]; intros k [|[[ok code] data] rs];
    try (split; [apply Forall_nil_2 | apply SSorted_nil]).
  destruct (IH (S k) rs) as [Hall Hsorted].
  assert (Hshift : Forall (λ x : failure,
            ∃ i, x.1.1 = Z.of_nat (k + i) ∧ (sid :: rest) !! i = Some x.1.2)
            (failures (zip (enumerate_from (S k) rest) rs))).
  { eapply Forall_impl; [exact Hall|]. intros x (i & Hi & Hl).
    exists (S i). split; [rewrite Hi; f_equal; lia | done]. }
  destruct ok.
  - change (failures (zip (enumerate_from k (sid :: rest)) ((true, code, data) :: rs)))
      with (failures (zip (enumerate_from (S k) rest) rs)).
    done.
  - change (failures (zip (enumerate_from k (sid :: rest)) ((false, code, data) :: rs)))
      with ((Z.of_nat k, sid, code) ::
            failures (zip (enumerate_from (S k) rest) rs)).
    split.
    + apply Forall_cons. split; [|done].
      exists 0. split; [simpl; f_equal; lia | done].
    + simpl. apply SSorted_cons; [done|].
      apply Forall_fmap. eapply Forall_impl; [exact Hall|].
      intros x (i & Hi & _). simpl. lia.
Qed.

(** X3.  Every entry [(idx, sid, status_code)] of the failure list of
    [batch_fetch_symphonies] points back into the input: [idx] is a
    position of the list and [sid] the identifier at that position; the
    entries come in increasing position, each position at most once. *)
Theorem batch_fetch_symphonies_failures_located
    (symphony_sid_list : list string) (w : world) :
  Forall (λ x : failure,
            ∃ i, x.1.1 = Z.of_nat i ∧ symphony_sid_list !! i = Some x.1.2)
    (batch_fetch_symphonies symphony_sid_list w).1.2 ∧
  StronglySorted Z.lt
    (failure_labels (batch_fetch_symphonies symphony_sid_list w).1.2).
Proof.
  unfold batch_fetch_symphonies.
  destruct (symphonies_loop 0 symphony_sid_list [] [] w)
    as [[response_list failure_list] w'] eqn:Hrun.
  apply symphonies_loop_spec in Hrun as (rs & _ & _ & _ & -> & _).
  apply (failures_enumerate symphony_sid_list 0 rs).
Qed.

(** X4.  A run of [batch_fetch_symphonies] over N identifiers pauses
    before the calls 0, 20, 40, ... and nowhere else, whatever the
    service answers: that is (N + 19) / 20 pauses of one second each. *)
Theorem batch_fetch_symphonies_pause_budget
    (symphony_sid_list : list string) (w : world) :
  pause_positions 0
    (new_events w (batch_fetch_symphonies symphony_sid_list w).2) =
    every_20th (length symphony_sid_list) ∧
  sleeps (new_events w (batch_fetch_symphonies symphony_sid_list w).2) =
    replicate ((length symphony_sid_list + 19) / 20) 1%Z.
Proof.
  unfold batch_fetch_symphonies.
  destruct (symphonies_loop_sleeps symphony_sid_list 0 [] [] w) as [n Hn].
  destruct (symphonies_loop 0 symphony_sid_list [] [] w)
    as [[response_list failure_list] w'] eqn:Hrun.
  apply symphonies_loop_spec in Hrun
    as (rs & delta & _ & _ & _ & _ & Htr & _ & _ & _ & Hp & _).
  cbn [snd] in *. rewrite (new_events_app w w' delta Htr).
  split; [exact Hp|].
  rewrite Htr, sleeps_app in Hn. apply app_inv_head in Hn.
  rewrite Hn. f_equal.
  rewrite <- every_20th_length. unfold every_20th. rewrite <- Hp.
  by rewrite pause_positions_sleeps, Hn, length_replicate.
Qed.

(** *** The backtest fetcher, continued *)

Lemma failures_labelled (df : dataframe) : ∀ rs : list reply,
  Forall (λ x : failure, ∃ r, (x.1.1, r) ∈ df ∧ symphony_sid r = x.1.2)
    (failures (zip (labelled_sids df) rs)) ∧
  failure_labels (failures (zip (labelled_sids df) rs)) `sublist_of` df.*1.
Proof.
  induction df as [|[idx r] df IH]; intros [|[[ok code] data] rs];
    try (split; [apply Forall_nil_2 | apply sublist_nil_l]).
  destruct (IH rs) as [Hall Hsub].
  assert (Hshift : Forall (λ x : failure,
            ∃ r', (x.1.1, r') ∈ (idx, r) :: df ∧ symphony_sid r' = x.1.2)
            (failures (zip (labelled_sids df) rs))).
  { eapply Forall_impl; [exact Hall|]. intros x (r' & Hin & Hsid).
    exists r'. split; [by right | done]. }
  destruct ok.
  - change (failures (zip (labelled_sids ((idx, r) :: df))
                        ((true, code, data) :: rs)))
      with (failures (zip (labelled_sids df) rs)).
    split; [done|]. by apply sublist_cons.
  - change (failures (zip (labelled_sids ((idx, r) :: df))
                        ((false, code, data) :: rs)))
      with ((idx, symphony_sid r, code) :: failures (zip (labelled_sids df) rs)).
    split.
    + apply Forall_cons. split; [|done]. exists r. split; [by left | done].
    + simpl. by apply sublist_skip.
Qed.

(** X5.  [batch_fetch_backtests] makes one [fetch_backtest_raw] call per
    row, in row order, each with the row's identifier and the one
    start/end date pair of the batch, and no other network call; every
    row ends in exactly one of the two lists, and a failure entry
    carries the index label and the identifier of its row, in row
    order. *)
Theorem batch_fetch_backtests_tally (df : dataframe)
    (start_date end_date : string) (w : world) :
  backtest_calls
    (new_events w (batch_fetch_backtests df start_date end_date w).2) =
    (λ x, (symphony_sid x.2, start_date, end_date)) <$> df ∧
  symphony_calls
    (new_events w (batch_fetch_backtests df start_date end_date w).2) = [] ∧
  length (batch_fetch_backtests df start_date end_date w).1.1 +
  length (batch_fetch_backtests df start_date end_date w).1.2 = length df ∧
  Forall (λ x : failure, ∃ r, (x.1.1, r) ∈ df ∧ symphony_sid r = x.1.2)
    (batch_fetch_backtests df start_date end_date w).1.2 ∧
  failure_labels (batch_fetch_backtests df start_date end_date w).1.2
    `sublist_of` df.*1.
Proof.
  unfold batch_fetch_backtests.
  destruct (backtests_loop df start_date end_date [] [] w)
    as [[rlist flist] w'] eqn:Hrun.
  apply (backtests_loop_spec df 0) in Hrun
    as (rs & delta & Hlen & -> & -> & Htr & _ & _ & Hb & Hs & _).
  cbn [fst snd]. rewrite (new_events_app w w' delta Htr).
  destruct (failures_labelled df rs) as [Hall Hsub].
  split_and!; try done.
  rewrite <- Hlen. apply tally_length.
  unfold labelled_sids. by rewrite length_fmap.
Qed.

(** X6.  [batch_fetch_backtests] pauses before exactly the rows whose
    index label is a multiple of 20, whatever the service answers; on a
    frame with the default index 0, 1, 2, ... these are the positions
    0, 20, 40, ... *)
Theorem batch_fetch_backtests_pauses (df : dataframe)
    (start_date end_date : string) (w : world) :
  pause_positions 0
    (new_events w (batch_fetch_backtests df start_date end_date w).2) =
    paced_rows 0 df.*1 ∧
  (df.*1 = Z.of_nat <$> seq 0 (length df) →
   pause_positions 0
     (new_events w (batch_fetch_backtests df start_date end_date w).2) =
     every_20th (length df)).
Proof.
  split.
  - apply batch_fetch_backtests_pacing.
  - apply batch_fetch_backtests_pacing_range.
Qed.

Lemma persisted_paths e (df : dataframe) (rs : list reply) p :
  p ∈ (zip_with (persisted e) df rs).*1 →
  ∃ x, x ∈ df ∧ p = backtest_filename e (symphony_sid x.2).
Proof.
  intros Hin. apply list_elem_of_fmap in Hin as (pc & -> & Hin).
  apply elem_of_zip_with in Hin as (x & r & -> & Hx & _). by exists x.
Qed.

(** X7.  [batch_fetch_backtests] touches no file but the per-identifier
    documents: a path that is not [bin/BT-{end_date}/{sid}.json] for a
    row of the frame holds after the run what it held before. *)
Theorem batch_fetch_backtests_frame (df : dataframe)
    (start_date end_date : string) (w : world) (path : string) :
  (∀ x, x ∈ df → path ≠ backtest_filename end_date (symphony_sid x.2)) →
  fs (batch_fetch_backtests df start_date end_date w).2 !! path =
  fs w !! path.
Proof.
  intros Hpath. unfold batch_fetch_backtests.
  destruct (backtests_loop df start_date end_date [] [] w)
    as [[rlist flist] w'] eqn:Hrun.
  apply (backtests_loop_spec df 0) in Hrun
    as (rs & delta & _ & _ & _ & _ & Hfs & Hw & _).
  cbn [snd]. rewrite Hfs, Hw. apply fs_after_frame.
  intros Hin. apply persisted_paths in Hin as (x & Hx & ->).
  by apply (Hpath x).
Qed.

Lemma persisted_content e (df : dataframe) (rs : list reply) m i x r :
  df !! i = Some x → rs !! i = Some r →
  (∀ i' y, i < i' → df !! i' = Some y → symphony_sid y.2 ≠ symphony_sid x.2) →
  fs_after m (zip_with (persisted e) df rs)
    !! backtest_filename e (symphony_sid x.2) = Some (Json r.2).
Proof.
  intros Hi Hr Hlater.
  rewrite <- (take_drop_middle df i x Hi), <- (take_drop_middle rs i r Hr).
  rewrite zip_with_app.
  2:{ rewrite !length_take.
      apply lookup_lt_Some in Hi, Hr.
      rewrite !Nat.min_l; [done | by apply Nat.lt_le_incl..]. }
  simpl. apply fs_after_last. intros Hin.
  apply persisted_paths in Hin as (y & Hy & Heq).
  apply backtest_filename_inj in Heq.
  apply list_elem_of_lookup in Hy as [n Hn]. rewrite lookup_drop in Hn.
  by apply (Hlater (S i + n) y); [lia| |].
Qed.

Lemma omap_Forall2 {A B C} (f : A → option C) (g : B → option C) l k :
  Forall2 (λ a b, f a = g b) l k → omap f l = omap g k.
Proof. induction 1 as [|a b l k Hab _ IH]; csimpl; [done|]. by rewrite Hab, IH. Qed.

Lemma omap_fmap_compose {A B C} (f : B → option C) (g : A → B) (l : list A) :
  omap f (g <$> l) = omap (λ a, f (g a)) l.
Proof. induction l as [|a l IH]; csimpl; [done|]. by rewrite IH. Qed.

(** X8.  What [batch_fetch_backtests] persists is what
    [process_backtest_results] reads back: on a frame without repeated
    identifiers, processing the files [bin/BT-{end_date}/{sid}.json] of
    its rows after the fetch stores exactly the backtests extracted from
    what the service answered at each call, in row order, the answers
    of failed calls included. *)
Theorem fetched_backtests_are_processed (df : dataframe)
    (start_date end_date : string) (w : world) :
  NoDup (symphony_sid_values df) →
  ∃ rs : list reply,
    length rs = length df ∧
    (∀ i r, rs !! i = Some r →
       ∃ x pre post,
         df !! i = Some x ∧
         new_events w (batch_fetch_backtests df start_date end_date w).2 =
           pre ++ EvFetchBacktest (symphony_sid x.2) start_date end_date ::
             EvWrite (backtest_filename end_date (symphony_sid x.2)) (Json r.2) ::
             post ∧
         length (backtest_calls pre) = i ∧
         r = backtest_reply (trace w ++ pre) (symphony_sid x.2)
               start_date end_date) ∧
    (batch_fetch_backtests df start_date end_date w).1.1 = successes rs ∧
    (batch_fetch_backtests df start_date end_date w).1.2 =
      failures (zip (labelled_sids df) rs) ∧
    loaded (backtest_filename end_date <$> symphony_sid_values df)
      (batch_fetch_backtests df start_date end_date w).2 =
      omap (λ r : reply, get_backtest_and_symphony_name r.2) rs ∧
    (process_backtest_results
       (backtest_filename end_date <$> symphony_sid_values df)
       (batch_fetch_backtests df start_date end_date w).2).1 =
    collect (omap (λ r : reply, get_backtest_and_symphony_name r.2) rs)
      (Dicts ∅ ∅ ∅ ∅).
Proof.
  intros Hnodup. unfold batch_fetch_backtests.
  destruct (backtests_loop df start_date end_date [] [] w)
    as [[rlist flist] w'] eqn:Hrun.
  apply (backtests_loop_spec df 0) in Hrun
    as (rs & delta & Hlen & -> & -> & Htr & Hfs & Hw & _ & _ & _ & Htie).
  cbn [fst snd]. rewrite (new_events_app w w' delta Htr).
  assert (Hloaded :
    loaded (backtest_filename end_date <$> symphony_sid_values df) w' =
    omap (λ r : reply, get_backtest_and_symphony_name r.2) rs).
  { unfold loaded, symphony_sid_values. rewrite !omap_fmap_compose.
    apply omap_Forall2.
    apply Forall2_same_length_lookup_2; [done|].
    intros i x r Hi Hr. unfold load_backtest, read_json. simpl.
    rewrite Hfs, Hw, (persisted_content end_date df rs (fs w) i x r Hi Hr);
      [done|].
    intros i' y Hlt Hy Heq.
    assert (i = i'); [|lia].
    eapply NoDup_lookup; [exact Hnodup| |].
    - unfold symphony_sid_values. rewrite list_lookup_fmap, Hi. reflexivity.
    - unfold symphony_sid_values, dataframe in *.
      rewrite list_lookup_fmap, Hy. simpl. by rewrite Heq. }
  exists rs. split_and!; try done.
  by rewrite process_backtest_results_collect, Hloaded.
Qed.

(** *** The backtest result processor, continued *)

Lemma prints_no_pause (delta : list event) :
  Forall (λ e, ∃ msg, e = EvPrint msg) delta →
  sleeps delta = [] ∧ ∀ k, pause_positions k delta = [].
Proof.
  induction 1 as [|e delta [msg ->] _ [IHs IHp]]; [done|].
  split; [exact IHs | intros k; apply IHp].
Qed.

(** X9.  [process_backtest_results] only reads and prints: it leaves
    every file as it was, writes nothing, makes no network call and
    never pauses. *)
Theorem process_backtest_results_read_only (jsonfiles : list string) (w : world) :
  fs (process_backtest_results jsonfiles w).2 = fs w ∧
  writes (new_events w (process_backtest_results jsonfiles w).2) = [] ∧
  symphony_calls (new_events w (process_backtest_results jsonfiles w).2) = [] ∧
  backtest_calls (new_events w (process_backtest_results jsonfiles w).2) = [] ∧
  sleeps (new_events w (process_backtest_results jsonfiles w).2) = [].
Proof.
  unfold process_backtest_results.
  destruct (backtest_results_loop 0 jsonfiles (Dicts ∅ ∅ ∅ ∅) w)
    as [d' w'] eqn:Hrun.
  apply backtest_results_loop_spec in Hrun as (_ & Hfs & delta & Htr & Hdelta & _).
  cbn [snd]. rewrite (new_events_app w w' delta Htr).
  destruct (prints_quiet delta Hdelta) as (Hw & Hs & Hb).
  destruct (prints_no_pause delta Hdelta) as (Hsl & _).
  by split_and!.
Qed.

Lemma log_with_app tag a b :
  log_with tag (a ++ b) = log_with tag a ++ log_with tag b.
Proof. unfold log_with. by rewrite prints_app, filter_app. Qed.

Lemma prefix_append (tag x : string) : String.prefix tag (tag +:+ x) = true.
Proof.
  induction tag as [|a tag IH]; simpl.
  - by destruct x.
  - by destruct (ascii_dec a a).
Qed.

Lemma log_with_tagged tag x : log_with tag [EvPrint (tag +:+ x)] = [tag +:+ x].
Proof.
  unfold log_with. cbn [prints omap list_omap].
  rewrite filter_cons, decide_True; [done | apply prefix_append].
Qed.

Lemma backtest_results_loop_logs files : ∀ index d w,
  log_with "Fail jsonfile " (trace (backtest_results_loop index files d w).2) =
    log_with "Fail jsonfile " (trace w) ++
    ((λ f, "Fail jsonfile " +:+ f) <$>
       filter (λ f, load_backtest f w = None) files) ∧
  log_with "Index: " (trace (backtest_results_loop index files d w).2) =
    log_with "Index: " (trace w) ++
    ((λ i : nat, "Index: " +:+ pretty i) <$>
       filter (λ p, (Z.of_nat p mod 20 = 0)%Z) (seq index (length files))).
Proof.
  induction files as [|f rest IH]; intros index d w.
  - simpl. by rewrite !app_nil_r.
  - cbn [backtest_results_loop length seq].
    set (w1 := if (Z.of_nat index mod 20 =? 0)%Z
               then print ("Index: " +:+ pretty index) w else w).
    assert (Hfs1 : fs w1 = fs w).
    { unfold w1. by destruct (Z.of_nat index mod 20 =? 0)%Z. }
    assert (Hfail1 : log_with "Fail jsonfile " (trace w1) =
                     log_with "Fail jsonfile " (trace w)).
    { unfold w1. destruct (Z.of_nat index mod 20 =? 0)%Z; [|done].
      simpl. rewrite log_with_app.
      change (log_with "Fail jsonfile " [EvPrint ("Index: " +:+ pretty index)])
        with (@nil string).
      by rewrite app_nil_r. }
    assert (Hindex1 : log_with "Index: " (trace w1) =
              log_with "Index: " (trace w) ++
              ((λ i : nat, "Index: " +:+ pretty i) <$>
                 filter (λ p, (Z.of_nat p mod 20 = 0)%Z) [index])).
    { unfold w1. rewrite filter_cons, filter_nil.
      destruct (Z.eqb_spec (Z.of_nat index mod 20) 0) as [Hz|Hz].
      - rewrite decide_True by done. simpl.
        by rewrite log_with_app, (log_with_tagged "Index: ").
      - rewrite decide_False by done. simpl. by rewrite app_nil_r. }
    assert (Hrest : ∀ w2, fs w2 = fs w →
              filter (λ g, load_backtest g w2 = None) rest =
              filter (λ g, load_backtest g w = None) rest).
    { intros w2 Hfs2. apply list_filter_iff. intros g.
      by rewrite (load_backtest_fs g w2 w Hfs2). }
    rewrite (filter_cons (λ p, (Z.of_nat p mod 20 = 0)%Z) index).
    rewrite (filter_cons (λ g, load_backtest g w = None) f).
    rewrite <- (load_backtest_fs f w1 w Hfs1).
    rewrite filter_cons, filter_nil in Hindex1.
    destruct (load_backtest f w1) as [b|] eqn:Hb.
    + destruct (IH (S index) (store_backtest b d) w1) as [Hf Hi].
      rewrite Hf, Hi, Hfail1, Hindex1, (Hrest w1 Hfs1).
      rewrite decide_False by done. split; [done|].
      rewrite <- app_assoc. f_equal. by destruct (decide _).
    + destruct (IH (S index) d (print ("Fail jsonfile " +:+ f) w1)) as [Hf Hi].
      rewrite Hf, Hi, (Hrest (print ("Fail jsonfile " +:+ f) w1) Hfs1).
      rewrite decide_True by done. simpl. rewrite !log_with_app.
      change (log_with "Index: " [EvPrint ("Fail jsonfile " +:+ f)])
        with (@nil string).
      rewrite (log_with_tagged "Fail jsonfile ").
      rewrite app_nil_r, Hfail1, Hindex1, <- !app_assoc. split; [done|].
      f_equal. by destruct (decide _).
Qed.

(** X10.  The log of [process_backtest_results] names exactly the files
    it skipped, in order, one [Fail jsonfile] line each, and reports
    progress with an [Index:] line at the files 0, 20, 40, ... of the
    batch. *)
Theorem process_backtest_results_log (jsonfiles : list string) (w : world) :
  log_with "Fail jsonfile "
    (new_events w (process_backtest_results jsonfiles w).2) =
    (λ f, "Fail jsonfile " +:+ f) <$>
      filter (λ f, load_backtest f w = None) jsonfiles ∧
  log_with "Index: "
    (new_events w (process_backtest_results jsonfiles w).2) =
    (λ i : nat, "Index: " +:+ pretty i) <$> every_20th (length jsonfiles).
Proof.
  unfold process_backtest_results.
  destruct (backtest_results_loop_logs jsonfiles 0 (Dicts ∅ ∅ ∅ ∅) w)
    as [Hf Hi].
  destruct (backtest_results_loop 0 jsonfiles (Dicts ∅ ∅ ∅ ∅) w)
    as [d' w'] eqn:Hrun.
  apply backtest_results_loop_spec in Hrun as (_ & _ & delta & Htr & _).
  cbn [snd] in *. rewrite (new_events_app w w' delta Htr).
  rewrite Htr, log_with_app in Hf, Hi.
  apply app_inv_head in Hf, Hi. by split.
Qed.

Lemma put_all_unique {A V} (key : A → string) (val : A → V) m l a :
  NoDup (key <$> l) → a ∈ l → put_all key val m l !! key a = Some (val a).
Proof.
  intros Hnodup Hin. apply list_elem_of_split in Hin as (l1 & l2 & ->).
  apply put_all_last. rewrite fmap_app, fmap_cons in Hnodup.
  apply NoDup_app in Hnodup as (_ & _ & Hnodup).
  by apply NoDup_cons in Hnodup as [Hnotin _].
Qed.

(** With each key stored once, the order of the stores does not matter. *)
Lemma put_all_perm {A V} (key : A → string) (val : A → V) m l1 l2 :
  NoDup (key <$> l1) → l1 ≡ₚ l2 → put_all key val m l1 = put_all key val m l2.
Proof.
  intros Hnodup Hperm. apply map_eq. intros k.
  assert (Hnodup2 : NoDup (key <$> l2)) by by rewrite <- Hperm.
  destruct (decide (k ∈ key <$> l1)) as [Hin|Hout].
  - apply list_elem_of_fmap in Hin as (a & -> & Hin).
    rewrite (put_all_unique key val m l1 a Hnodup Hin).
    rewrite (put_all_unique key val m l2 a Hnodup2); [done|].
    by rewrite <- Hperm.
  - rewrite put_all_frame by done. rewrite put_all_frame; [done|].
    by rewrite <- Hperm.
Qed.

(** X11.  When the files of a batch embed pairwise different
    identifiers, [process_backtest_results] returns the same four
    dictionaries in whatever order the files are given. *)
Theorem process_backtest_results_any_order
    (jsonfiles reordered : list string) (w : world) :
  NoDup (bt_id <$> loaded jsonfiles w) →
  jsonfiles ≡ₚ reordered →
  (process_backtest_results reordered w).1 =
  (process_backtest_results jsonfiles w).1.
Proof.
  intros Hnodup Hperm. rewrite !process_backtest_results_collect.
  assert (Hloaded : loaded jsonfiles w ≡ₚ loaded reordered w).
  { unfold loaded. by rewrite Hperm. }
  destruct (collect_dicts (loaded jsonfiles w) (Dicts ∅ ∅ ∅ ∅))
    as (Ha & Hr & Hs & Hn).
  destruct (collect_dicts (loaded reordered w) (Dicts ∅ ∅ ∅ ∅))
    as (Ha' & Hr' & Hs' & Hn').
  destruct (collect (loaded jsonfiles w) (Dicts ∅ ∅ ∅ ∅)) as [a r s n].
  destruct (collect (loaded reordered w) (Dicts ∅ ∅ ∅ ∅)) as [a' r' s' n'].
  simpl in *. subst.
  f_equal; symmetry; by apply put_all_perm.
Qed.

Lemma put_all_update {A V} (key : A → string) (val : A → V) m l :
  put_all key val m l = dict_update m (put_all key val ∅ l).
Proof.
  apply map_eq. intros k. rewrite dict_update_lookup.
  induction l as [|a l IH] using rev_ind.
  - simpl. by rewrite lookup_empty.
  - rewrite !put_all_app. simpl. destruct (decide (key a = k)) as [<-|Hne].
    + by rewrite !lookup_insert_eq.
    + by rewrite !lookup_insert_ne.
Qed.

(** X12.  A batch can be processed in two parts: the dictionaries of
    [process_backtest_results] for a concatenated file list are those of
    the first part updated ([dict.update]) with those of the second. *)
Theorem process_backtest_results_in_parts (part1 part2 : list string) (w : world) :
  dict_allocation (process_backtest_results (part1 ++ part2) w).1 =
    dict_update (dict_allocation (process_backtest_results part1 w).1)
                (dict_allocation (process_backtest_results part2 w).1) ∧
  dict_return (process_backtest_results (part1 ++ part2) w).1 =
    dict_update (dict_return (process_backtest_results part1 w).1)
                (dict_return (process_backtest_results part2 w).1) ∧
  dict_stats (process_backtest_results (part1 ++ part2) w).1 =
    dict_update (dict_stats (process_backtest_results part1 w).1)
                (dict_stats (process_backtest_results part2 w).1) ∧
  dict_name (process_backtest_results (part1 ++ part2) w).1 =
    dict_update (dict_name (process_backtest_results part1 w).1)
                (dict_name (process_backtest_results part2 w).1).
Proof.
  rewrite !process_backtest_results_collect, loaded_app.
  destruct (collect_dicts (loaded part1 w ++ loaded part2 w) (Dicts ∅ ∅ ∅ ∅))
    as (-> & -> & -> & ->).
  destruct (collect_dicts (loaded part1 w) (Dicts ∅ ∅ ∅ ∅))
    as (-> & -> & -> & ->).
  destruct (collect_dicts (loaded part2 w) (Dicts ∅ ∅ ∅ ∅))
    as (-> & -> & -> & ->).
  rewrite !put_all_app. simpl.
  split_and!; apply put_all_update.
Qed.

(** *** The workflow, continued *)

(** Once the exports are read, the workflow fetches the symphonies
    (events [a]), then fetches and re-reads the backtests (events [b]),
    and only then tries to build the two statistics frames. *)
Lemma workflow_phases (w w1 : world) (symphonies_dict : gmap string json) :
  process_discord_exports "~/source/discord/archive/20241229" w =
    (w1, Some symphonies_dict) →
  ∃ (response_list : list json) (rs : list reply) (d : dicts) (w6 : world)
    (a b : list event),
    length rs = length (symphonies_to_df symphonies_dict) ∧
    trace w6 = trace w ++ a ++ b ∧
    symphony_calls a = symphony_sid_values (symphonies_to_df symphonies_dict) ∧
    backtest_calls a = [] ∧
    writes a =
      [(get_csv_name "SYMPHONIES", Csv (symphonies_to_df symphonies_dict));
       (get_csv_name "OOS", Csv (response_to_dataframe response_list))] ∧
    symphony_calls b = [] ∧
    backtest_calls b =
      (λ x, (symphony_sid x.2, get_start_end_date.1, get_start_end_date.2))
        <$> symphonies_to_df symphonies_dict ∧
    writes b =
      zip_with (persisted get_start_end_date.2)
        (symphonies_to_df symphonies_dict) rs ∧
    main_data_collection_workflow w =
      match sid_to_oos_of (response_to_dataframe response_list) with
      | None => (w6, None)
      | Some sid_to_oos =>
          (to_csv (convert_sid_dict_to_df (dict_name d)
                     (calculate_oos_stats (dict_return d) sid_to_oos))
             (get_csv_name "OOS")
             (to_csv (convert_sid_dict_to_df (dict_name d)
                        (merge_dicts (dict_stats d)
                           (calculate_quantstats_metrics (dict_return d))))
                (get_csv_name "BACKTEST") w6),
           Some (convert_sid_dict_to_df (dict_name d)
                   (merge_dicts (dict_stats d)
                      (calculate_quantstats_metrics (dict_return d))),
                 convert_sid_dict_to_df (dict_name d)
                   (calculate_oos_stats (dict_return d) sid_to_oos)))
      end.
Proof.
  intros Hexports. unfold main_data_collection_workflow.
  destruct get_start_end_date as [start_date end_date].
  destruct (process_discord_exports_spec "~/source/discord/archive/20241229" w)
    as (_ & d1 & Htr1 & Hd1).
  rewrite Hexports in Htr1 |- *. simpl in Htr1.
  set (df := symphonies_to_df symphonies_dict).
  set (w2 := to_csv df (get_csv_name "SYMPHONIES") w1).
  unfold batch_fetch_symphonies, batch_fetch_backtests, process_backtest_results.
  destruct (symphonies_loop 0 (symphony_sid_values df) [] [] w2)
    as [[response_list failure_list] w3] eqn:Hrun3.
  apply symphonies_loop_spec in Hrun3
    as (_ & d3 & _ & _ & _ & _ & Htr3 & Hs3 & Hb3 & Hw3 & _).
  set (df_response := response_to_dataframe response_list).
  set (w4 := to_csv df_response (get_csv_name "OOS") w3).
  destruct (backtests_loop df start_date end_date [] [] w4)
    as [[rlist flist] w5] eqn:Hrun5.
  apply (backtests_loop_spec df 0) in Hrun5
    as (rs & d5 & Hlen & _ & _ & Htr5 & _ & Hw5 & Hb5 & Hs5 & _).
  destruct (backtest_results_loop 0
              (backtest_filename end_date <$> symphony_sid_values df)
              (Dicts ∅ ∅ ∅ ∅) w5) as [d w6] eqn:Hrun6.
  apply backtest_results_loop_spec in Hrun6 as (_ & _ & d6 & Htr6 & Hd6 & _).
  apply prints_quiet in Hd1 as (Hw1 & Hs1 & Hb1), Hd6 as (Hw6 & Hs6 & Hb6).
  exists response_list, rs, d, w6,
    (d1 ++ [EvWrite (get_csv_name "SYMPHONIES") (Csv df)] ++ d3 ++
     [EvWrite (get_csv_name "OOS") (Csv df_response)]),
    (d5 ++ d6).
  cbn [fst snd].
  split_and!.
  - done.
  - rewrite Htr6, Htr5. simpl. rewrite Htr3. simpl. rewrite Htr1.
    rewrite <- !app_assoc. simpl. by rewrite <- !app_assoc.
  - rewrite !symphony_calls_app, Hs1, Hs3. simpl. by rewrite app_nil_r.
  - by rewrite !backtest_calls_app, Hb1, Hb3.
  - by rewrite !writes_app, Hw1, Hw3.
  - by rewrite symphony_calls_app, Hs5, Hs6.
  - by rewrite backtest_calls_app, Hb5, Hb6, app_nil_r.
  - by rewrite writes_app, Hw5, Hw6, app_nil_r.
  - reflexivity.
Qed.

(** X13.  Once the exports are read, [main_data_collection_workflow]
    fetches every identifier of the symphony frame twice, in frame
    order: first all the symphonies, then all the backtests with the
    run's date pair; the backtest of an identifier is fetched whether or
    not its symphony fetch succeeded. *)
Theorem workflow_fetches_every_identifier (w w1 : world)
    (symphonies_dict : gmap string json) :
  process_discord_exports "~/source/discord/archive/20241229" w =
    (w1, Some symphonies_dict) →
  symphony_calls (new_events w (main_data_collection_workflow w).1) =
    symphony_sid_values (symphonies_to_df symphonies_dict) ∧
  backtest_calls (new_events w (main_data_collection_workflow w).1) =
    (λ sid, (sid, get_start_end_date.1, get_start_end_date.2))
      <$> symphony_sid_values (symphonies_to_df symphonies_dict) ∧
  ∃ a b,
    new_events w (main_data_collection_workflow w).1 = a ++ b ∧
    backtest_calls a = [] ∧
    symphony_calls b = [].
Proof.
  intros Hexports.
  destruct (workflow_phases w w1 symphonies_dict Hexports)
    as (response_list & rs & d & w6 & a & b &
        _ & Htr & Hsa & Hba & _ & Hsb & Hbb & _ & ->).
  assert (Hbb' : backtest_calls b =
    (λ sid, (sid, get_start_end_date.1, get_start_end_date.2))
      <$> symphony_sid_values (symphonies_to_df symphonies_dict)).
  { rewrite Hbb. unfold symphony_sid_values. by rewrite <- list_fmap_compose. }
  destruct (sid_to_oos_of (response_to_dataframe response_list))
    as [sid_to_oos|]; cbn [fst].
  - erewrite new_events_app.
    2:{ simpl. rewrite Htr, <- !app_assoc. reflexivity. }
    rewrite !symphony_calls_app, !backtest_calls_app, Hsa, Hba, Hsb, Hbb'.
    simpl. rewrite !app_nil_r. split_and!; [done|done|].
    eexists a, _. split; [reflexivity|]. split; [done|].
    by rewrite symphony_calls_app, Hsb.
  - rewrite (new_events_app w w6 (a ++ b) Htr).
    rewrite !symphony_calls_app, !backtest_calls_app, Hsa, Hba, Hsb, Hbb'.
    rewrite app_nil_r. split_and!; [done|done|]. by exists a, b.
Qed.

(** X14.  When the export directory cannot be processed,
    [main_data_collection_workflow] raises at once: nothing is fetched
    and no file is written. *)
Theorem workflow_stops_without_exports (w : world) :
  (process_discord_exports "~/source/discord/archive/20241229" w).2 = None →
  (main_data_collection_workflow w).2 = None ∧
  fs (main_data_collection_workflow w).1 = fs w ∧
  writes (new_events w (main_data_collection_workflow w).1) = [] ∧
  symphony_calls (new_events w (main_data_collection_workflow w).1) = [] ∧
  backtest_calls (new_events w (main_data_collection_workflow w).1) = [].
Proof.
  intros Hnone. unfold main_data_collection_workflow.
  destruct get_start_end_date as [start_date end_date].
  destruct (process_discord_exports_spec "~/source/discord/archive/20241229" w)
    as (Hfs & delta & Htr & Hdelta).
  destruct (process_discord_exports "~/source/discord/archive/20241229" w)
    as [w1 [symphonies_dict|]]; [done|].
  cbn [fst snd] in *. rewrite (new_events_app w w1 delta Htr).
  destruct (prints_quiet delta Hdelta) as (Hw & Hs & Hb). by split_and!.
Qed.

(** X15.  The workflow is not transactional: when the responses frame
    has no [backtest_start_date] to build the OOS mapping from, the run
    raises only after all the fetching and re-reading: every symphony
    and every backtest has been fetched, the SYMPHONIES file, the OOS
    file with the responses frame and every backtest document are
    written by then, and the BACKTEST file never is. *)
Theorem workflow_fails_after_fetching (w w1 w' : world)
    (symphonies_dict : gmap string json) :
  process_discord_exports "~/source/discord/archive/20241229" w =
    (w1, Some symphonies_dict) →
  main_data_collection_workflow w = (w', None) →
  sid_to_oos_of (step_df_response symphonies_dict w1) = None ∧
  w' = (step_results symphonies_dict w1).2 ∧
  symphony_calls (new_events w w') =
    symphony_sid_values (step_df symphonies_dict) ∧
  backtest_calls (new_events w w') =
    (λ sid, (sid, get_start_end_date.1, get_start_end_date.2))
      <$> symphony_sid_values (step_df symphonies_dict) ∧
  writes (new_events w w') =
    (get_csv_name "SYMPHONIES", Csv (step_df symphonies_dict)) ::
    (get_csv_name "OOS", Csv (step_df_response symphonies_dict w1)) ::
    step_documents symphonies_dict w1 ∧
  (step_documents symphonies_dict w1).*1 =
    backtest_filename get_start_end_date.2
      <$> symphony_sid_values (step_df symphonies_dict).
Proof.
  intros Hexports Hfail.
  rewrite (workflow_steps w w1 symphonies_dict Hexports) in Hfail.
  destruct (sid_to_oos_of (step_df_response symphonies_dict w1))
    as [sid_to_oos|]; [done|].
  injection Hfail as <-.
  destruct (workflow_steps_trace w w1 symphonies_dict Hexports)
    as (a & b & Htr & Hsa & Hba & Hwa & Hsb & Hbb & Hwb & Hpaths).
  rewrite (new_events_app w _ (a ++ b) Htr).
  split_and!; try done.
  - rewrite symphony_calls_app, Hsa, Hsb. by rewrite app_nil_r.
  - by rewrite backtest_calls_app, Hba, Hbb.
  - by rewrite writes_app, Hwa, Hwb.
Qed.

End Further.

(** ** Concrete runs, continued *)

(** The two demo exports both mention [s2]; the listing has [a.json]
    first, so the run completes and [b.json] decides. *)
Lemma process_discord_exports_last_wins_witness :
  process_discord_exports (dp := demo_dp) (os := demo_os)
    "~/source/discord/archive/20241229" demo_world =
    ((process_discord_exports (dp := demo_dp) (os := demo_os)
        "~/source/discord/archive/20241229" demo_world).1,
     Some {[ "s1" := JStr "Alpha"; "s2" := JStr "Beta again";
             "y3" := JStr "Gamma" ]}) ∧
  ∃ (names : list string) (ms : list (gmap string json)),
    listdir (Os := demo_os) (fs demo_world)
      "~/source/discord/archive/20241229" = Some names ∧
    Forall2 (λ f m, extraction (H := demo_dp) f demo_world = Some m)
      (export_files "~/source/discord/archive/20241229" names demo_world) ms.
Proof.
  assert (Hrun : process_discord_exports (dp := demo_dp) (os := demo_os)
            "~/source/discord/archive/20241229" demo_world =
          ((process_discord_exports (dp := demo_dp) (os := demo_os)
              "~/source/discord/archive/20241229" demo_world).1,
           Some {[ "s1" := JStr "Alpha"; "s2" := JStr "Beta again";
                   "y3" := JStr "Gamma" ]}))
    by (vm_compute; reflexivity).
  split; [exact Hrun|].
  destruct (process_discord_exports_last_wins (dp := demo_dp) (os := demo_os)
              _ _ _ _ Hrun) as (names & ms & Hlist & Hall & _).
  exists names, ms. split; [exact Hlist | exact Hall].
Defined.

(** A file next to the backtest documents is left alone. *)
Lemma batch_fetch_backtests_frame_witness :
  fs (batch_fetch_backtests (api := demo_api) [(0%Z, Row "s1" ∅)]
        "2020-01-01" "2024-12-29"
        (World {[ "notes.txt" := Raw "keep" ]} [])).2 !! "notes.txt" =
  Some (Raw "keep").
Proof.
  refine (batch_fetch_backtests_frame (api := demo_api) [(0%Z, Row "s1" ∅)]
            "2020-01-01" "2024-12-29"
            (World {[ "notes.txt" := Raw "keep" ]} []) "notes.txt" _).
  intros x Hin. apply list_elem_of_singleton in Hin. subst x.
  vm_compute. discriminate.
Defined.

(** Two rows, one refused by the service: both documents are read back,
    and only the first one is a backtest. *)
Lemma fetched_backtests_are_processed_witness :
  NoDup (symphony_sid_values [(0%Z, Row "s1" ∅); (1%Z, Row "y3" ∅)]) ∧
  ∃ rs : list reply,
    length rs = 2 ∧
    (process_backtest_results (dp := demo_dp)
       (backtest_filename "2024-12-29" <$>
          symphony_sid_values [(0%Z, Row "s1" ∅); (1%Z, Row "y3" ∅)])
       (batch_fetch_backtests (api := demo_api)
          [(0%Z, Row "s1" ∅); (1%Z, Row "y3" ∅)]
          "2020-01-01" "2024-12-29" (World ∅ [])).2).1 =
    collect (omap (λ r : reply,
                     get_backtest_and_symphony_name (DataProcessing := demo_dp) r.2)
               rs) (Dicts ∅ ∅ ∅ ∅).
Proof.
  assert (Hnodup : NoDup (symphony_sid_values
                     [(0%Z, Row "s1" ∅); (1%Z, Row "y3" ∅)])).
  { apply (bool_decide_unpack _). vm_compute. exact I. }
  split; [exact Hnodup|].
  destruct (fetched_backtests_are_processed (api := demo_api) (dp := demo_dp)
              [(0%Z, Row "s1" ∅); (1%Z, Row "y3" ∅)]
              "2020-01-01" "2024-12-29" (World ∅ []) Hnodup)
    as (rs & Hlen & _ & _ & _ & _ & Hdicts).
  by exists rs.
Defined.

(** The two good files of the demo disk, in both orders. *)
Lemma process_backtest_results_any_order_witness :
  NoDup (bt_id <$> loaded (H := demo_dp) [demo_s1; demo_s3] demo_disk) ∧
  [demo_s1; demo_s3] ≡ₚ [demo_s3; demo_s1] ∧
  (process_backtest_results (dp := demo_dp) [demo_s3; demo_s1] demo_disk).1 =
  (process_backtest_results (dp := demo_dp) [demo_s1; demo_s3] demo_disk).1.
Proof.
  assert (Hnodup : NoDup (bt_id <$>
                     loaded (H := demo_dp) [demo_s1; demo_s3] demo_disk)).
  { apply (bool_decide_unpack _). vm_compute. exact I. }
  assert (Hperm : [demo_s1; demo_s3] ≡ₚ [demo_s3; demo_s1]) by apply perm_swap.
  split; [exact Hnodup|]. split; [exact Hperm|].
  exact (process_backtest_results_any_order (dp := demo_dp)
           [demo_s1; demo_s3] [demo_s3; demo_s1] demo_disk Hnodup Hperm).
Defined.

(** The demo run fetches [s1], [s2] and [y3] as symphonies and then as
    backtests. *)
Lemma workflow_fetches_every_identifier_witness :
  symphony_calls (trace demo_run.1) = ["s1"; "s2"; "y3"] ∧
  backtest_calls (trace demo_run.1) =
    [("s1", "2020-01-01", "2024-12-29"); ("s2", "2020-01-01", "2024-12-29");
     ("y3", "2020-01-01", "2024-12-29")].
Proof.
  assert (Hexports : process_discord_exports (dp := demo_dp) (os := demo_os)
            "~/source/discord/archive/20241229" demo_world =
          ((process_discord_exports (dp := demo_dp) (os := demo_os)
              "~/source/discord/archive/20241229" demo_world).1,
           Some {[ "s1" := JStr "Alpha"; "s2" := JStr "Beta again";
                   "y3" := JStr "Gamma" ]}))
    by (vm_compute; reflexivity).
  destruct (workflow_fetches_every_identifier (api := demo_api) (dp := demo_dp)
              (fu := demo_fu) (qa := demo_qa) (os := demo_os)
              demo_world _ _ Hexports) as (Hs & Hb & _).
  split; [exact Hs | exact Hb].
Defined.

(** On a disk without exports the demo workflow stops at once. *)
Lemma workflow_stops_without_exports_witness :
  (process_discord_exports (dp := demo_dp) (os := demo_os)
     "~/source/discord/archive/20241229" (World ∅ [])).2 = None ∧
  (main_data_collection_workflow (api := demo_api) (dp := demo_dp)
     (fu := demo_fu) (qa := demo_qa) (os := demo_os) (World ∅ [])).2 = None.
Proof.
  assert (Hnone : (process_discord_exports (dp := demo_dp) (os := demo_os)
                     "~/source/discord/archive/20241229" (World ∅ [])).2 = None)
    by (vm_compute; reflexivity).
  split; [exact Hnone|].
  exact (proj1 (workflow_stops_without_exports (api := demo_api) (dp := demo_dp)
                  (fu := demo_fu) (qa := demo_qa) (os := demo_os)
                  (World ∅ []) Hnone)).
Defined.

(** With a responses frame that lacks the column, the demo workflow
    raises after its six fetches and five writes. *)
Lemma workflow_fails_after_fetching_witness :
  (main_data_collection_workflow (api := demo_api) (dp := demo_dp_plain)
     (fu := demo_fu) (qa := demo_qa) (os := demo_os) demo_world).2 = None ∧
  symphony_calls
    (new_events demo_world
       (main_data_collection_workflow (api := demo_api) (dp := demo_dp_plain)
          (fu := demo_fu) (qa := demo_qa) (os := demo_os) demo_world).1) =
    symphony_sid_values
      (step_df (dp := demo_dp_plain)
         {[ "s1" := JStr "Alpha"; "s2" := JStr "Beta again";
            "y3" := JStr "Gamma" ]}).
Proof.
  assert (Hexports : process_discord_exports (dp := demo_dp_plain) (os := demo_os)
            "~/source/discord/archive/20241229" demo_world =
          ((process_discord_exports (dp := demo_dp_plain) (os := demo_os)
              "~/source/discord/archive/20241229" demo_world).1,
           Some {[ "s1" := JStr "Alpha"; "s2" := JStr "Beta again";
                   "y3" := JStr "Gamma" ]}))
    by (vm_compute; reflexivity).
  assert (Hfail : main_data_collection_workflow (api := demo_api)
            (dp := demo_dp_plain) (fu := demo_fu) (qa := demo_qa) (os := demo_os)
            demo_world =
          ((main_data_collection_workflow (api := demo_api)
              (dp := demo_dp_plain) (fu := demo_fu) (qa := demo_qa)
              (os := demo_os) demo_world).1, None))
    by (vm_compute; reflexivity).
  split; [rewrite Hfail; reflexivity|].
  destruct (workflow_fails_after_fetching (api := demo_api) (dp := demo_dp_plain)
              (fu := demo_fu) (qa := demo_qa) (os := demo_os)
              demo_world _ _ _ Hexports Hfail)
    as (_ & _ & Hcalls & _).
  exact Hcalls.
Defined.

(** One export that is not a document fails the whole extraction. *)
Example broken_export_raises :
  (process_discord_exports (dp := demo_dp) (os := demo_os)
     "~/source/discord/archive/20241229" demo_broken_world).2 = None.
Proof. vm_compute. reflexivity. Qed.

(** On a default-index frame of 45 rows the backtest fetcher pauses
    three times, a second each. *)
Example range_frame_pauses :
  let run := batch_fetch_backtests (api := demo_api) range_frame
               "2020-01-01" "2024-12-29" (World ∅ []) in
  pause_positions 0 (trace run.2) = [0; 20; 40] ∧
  sleeps (trace run.2) = [1%Z; 1%Z; 1%Z] ∧
  length run.1.1 + length run.1.2 = 45.
Proof. vm_compute. done. Qed.
